(** * The API request-signing gate of aeternis_be

    A shallow embedding of [security/models.py], [security/services.py] and
    [security/middleware.py], and the properties of the gate stated over it.

    Conventions.
    - A Python [str] is a [string]: one [ascii] per code point.  Header
      values reach the application decoded as latin-1, so every code point
      of a header fits in one [ascii]; a character is ASCII when its code is
      below 128.
    - A [datetime] is a [Z]: microseconds since the epoch.
    - The two tables are finite maps keyed by their unique column; the cache
      is a finite map from keys to entries with an expiry instant.
    - An exception is a value [exn]; code that can raise returns an
      [outcome]; code that reads or writes the tables or the cache is a
      function of the [store].
    - A call reads the clock once: [now] is the instant of the call.
    - The length limits of the columns depend on the database and are left
      out; so is logging. *)

From Stdlib Require Import ZArith String Ascii List Bool Lia.
From stdpp Require Import base option gmap strings pretty.

Import ListNotations.
Local Open Scope string_scope.
Local Open Scope Z_scope.
Local Open Scope list_scope.

(** ** Python values *)

Module Py.

Definition chr (n : nat) : ascii := ascii_of_nat n.
Definition ord (c : ascii) : Z := Z.of_nat (nat_of_ascii c).

(** [c.isascii()] and [s.isascii()]. *)
Definition char_isascii (c : ascii) : bool := ord c <? 128.

Fixpoint isascii (s : string) : bool :=
  match s with
  | EmptyString => true
  | String c s' => char_isascii c && isascii s'
  end.

(** Truth value of a [str], and of the result of [dict.get]. *)
Definition truthy (s : string) : bool :=
  match s with EmptyString => false | _ => true end.

Definition truthy_opt (o : option string) : bool :=
  match o with Some s => truthy s | None => false end.

(** Truth value of what [cache.get] returns: a stored flag or [None]. *)
Definition truthy_obj (o : option bool) : bool :=
  match o with Some b => b | None => false end.

(** The value of a header that is known to be present. *)
Definition the (o : option string) : string :=
  match o with Some s => s | None => EmptyString end.

(** [a or b] on strings, where [a] may be [None]. *)
Definition or_else (a : option string) (b : string) : string :=
  match a with
  | Some s => if truthy s then s else b
  | None => b
  end.

(** [s.startswith(p)]. *)
Definition startswith (s p : string) : bool := String.prefix p s.

(** [sub in s]. *)
Fixpoint contains (sub s : string) : bool :=
  String.prefix sub s
  || match s with
     | EmptyString => false
     | String _ s' => contains sub s'
     end.

(** [s.rstrip('/')]. *)
Fixpoint rstrip_slash (s : string) : string :=
  match s with
  | EmptyString => EmptyString
  | String c s' =>
      match rstrip_slash s' with
      | EmptyString => if Ascii.eqb c "/" then EmptyString else String c EmptyString
      | r => String c r
      end
  end.

(** [x in l] for a list of strings. *)
Definition str_in (x : string) (l : list string) : bool :=
  existsb (String.eqb x) l.

(** [str(n)] for an [int]. *)
Definition str_of_int (n : Z) : string := pretty n.

(** *** [int(s)]

    The characters that [int] skips around the number: the C locale's
    white space and, past ASCII, the two latin-1 code points that Python
    counts as spaces (NEL and the no-break space). *)
Definition is_space (c : ascii) : bool :=
  let n := ord c in
  ((9 <=? n) && (n <=? 13)) || (n =? 32) || (n =? 133) || (n =? 160).

Definition digit_value (c : ascii) : option Z :=
  let n := ord c in
  if (48 <=? n) && (n <=? 57) then Some (n - 48) else None.

Fixpoint lstrip_space (s : string) : string :=
  match s with
  | String c s' => if is_space c then lstrip_space s' else s
  | EmptyString => EmptyString
  end.

Fixpoint all_space (s : string) : bool :=
  match s with
  | EmptyString => true
  | String c s' => is_space c && all_space s'
  end.

(** The digits after the first one: each is a digit, or one underscore
    followed by a digit; what follows the number is white space only. *)
Fixpoint int_digits (acc : Z) (s : string) : option Z :=
  match s with
  | EmptyString => Some acc
  | String c s' =>
      match digit_value c with
      | Some d => int_digits (10 * acc + d) s'
      | None =>
          if Ascii.eqb c "_" then
            match s' with
            | String c' s'' =>
                match digit_value c' with
                | Some d => int_digits (10 * acc + d) s''
                | None => None
                end
            | EmptyString => None
            end
          else if all_space s then Some acc else None
      end
  end.

Definition int_unsigned (s : string) : option Z :=
  match s with
  | String c s' =>
      match digit_value c with
      | Some d => int_digits d s'
      | None => None
      end
  | EmptyString => None
  end.

(** [int(s)] in base ten; [None] stands for [ValueError]. *)
Definition int_of_str (s : string) : option Z :=
  match lstrip_space s with
  | String "+" s' => int_unsigned s'
  | String "-" s' => Z.opp <$> int_unsigned s'
  | s' => int_unsigned s'
  end.

(** *** [str.encode('utf-8')] for code points below 256 *)
Definition utf8_char (c : ascii) : list Z :=
  let n := ord c in
  if n <? 128 then [n]
  else [Z.lor 192 (Z.shiftr n 6); Z.lor 128 (Z.land n 63)].

Fixpoint encode_utf8 (s : string) : list Z :=
  match s with
  | EmptyString => []
  | String c s' => utf8_char c ++ encode_utf8 s'
  end.

(** The bytes of a [bytes] object held as a [string]. *)
Fixpoint bytes_of (s : string) : list Z :=
  match s with
  | EmptyString => []
  | String c s' => ord c :: bytes_of s'
  end.

End Py.

(** ** [hashlib.sha256] and [hmac] *)

Module Sha256.

Definition w32 (x : Z) : Z := x mod 4294967296.

Definition add32 (x y : Z) : Z := w32 (x + y).

Definition rotr (n x : Z) : Z :=
  Z.lor (Z.shiftr x n) (w32 (Z.shiftl x (32 - n))).

Definition not32 (x : Z) : Z := Z.lxor x 4294967295.

Definition Ch (x y z : Z) : Z :=
  Z.lxor (Z.land x y) (Z.land (not32 x) z).

Definition Maj (x y z : Z) : Z :=
  Z.lxor (Z.lxor (Z.land x y) (Z.land x z)) (Z.land y z).

Definition Sigma0 (x : Z) : Z :=
  Z.lxor (Z.lxor (rotr 2 x) (rotr 13 x)) (rotr 22 x).

Definition Sigma1 (x : Z) : Z :=
  Z.lxor (Z.lxor (rotr 6 x) (rotr 11 x)) (rotr 25 x).

Definition sigma0 (x : Z) : Z :=
  Z.lxor (Z.lxor (rotr 7 x) (rotr 18 x)) (Z.shiftr x 3).

Definition sigma1 (x : Z) : Z :=
  Z.lxor (Z.lxor (rotr 17 x) (rotr 19 x)) (Z.shiftr x 10).

(** The first [n] primes, by trial division. *)
Fixpoint primes_from (fuel n : nat) (candidate : Z) (found : list Z)
    : list Z :=
  match fuel, n with
  | S fuel', S n' =>
      if forallb (fun p => negb (candidate mod p =? 0)) found
      then primes_from fuel' n' (candidate + 1) (candidate :: found)
      else primes_from fuel' n (candidate + 1) found
  | _, _ => rev found
  end.

Definition primes (n : nat) : list Z := primes_from 400 n 2 [].

(** The largest [r] below [2 ^ bits] with [r ^ k <= x], bit by bit. *)
Fixpoint root_bits (k : Z) (bits : nat) (x r : Z) : Z :=
  match bits with
  | O => r
  | S b =>
      let r' := r + 2 ^ Z.of_nat b in
      root_bits k b x (if r' ^ k <=? x then r' else r)
  end.

(** The first 32 bits of the fractional part of the [k]-th root of [p]. *)
Definition root_fraction (k p : Z) : Z :=
  w32 (root_bits k 40 (p * 2 ^ (32 * k)) 0).

(** The round constants: from the cube roots of the first 64 primes. *)
Definition K : list Z :=
  Eval vm_compute in map (root_fraction 3) (primes 64).

(** The initial hash value: from the square roots of the first 8 primes. *)
Definition H0 : list Z :=
  Eval vm_compute in map (root_fraction 2) (primes 8).

(** Big-endian bytes of a number, [n] of them. *)
Fixpoint be_bytes (n : nat) (x : Z) : list Z :=
  match n with
  | O => []
  | S n' => Z.land (Z.shiftr x (8 * Z.of_nat n')) 255 :: be_bytes n' x
  end.

(** The message, the byte 0x80, zeros up to 56 modulo 64, and the length in
    bits on eight bytes. *)
Definition pad (msg : list Z) : list Z :=
  let len := Z.of_nat (length msg) in
  let zeros := Z.to_nat ((55 - len) mod 64) in
  msg ++ [128] ++ repeat 0 zeros ++ be_bytes 8 (8 * len).

Fixpoint words (n : nat) (bs : list Z) : list Z :=
  match n, bs with
  | S n', b0 :: b1 :: b2 :: b3 :: bs' =>
      (Z.shiftl b0 24 + Z.shiftl b1 16 + Z.shiftl b2 8 + b3) :: words n' bs'
  | _, _ => []
  end.

Definition at_ (l : list Z) (i : nat) : Z := nth i l 0.

(** The message schedule: [win] holds the last sixteen words. *)
Fixpoint schedule (n : nat) (win : list Z) : list Z :=
  match n with
  | O => []
  | S n' =>
      let w := add32 (add32 (sigma1 (at_ win 14)) (at_ win 9))
                     (add32 (sigma0 (at_ win 1)) (at_ win 0)) in
      w :: schedule n' (tl win ++ [w])
  end.

Definition round (st : list Z) (kw : Z * Z) : list Z :=
  let a := at_ st 0 in let b := at_ st 1 in
  let c := at_ st 2 in let d := at_ st 3 in
  let e := at_ st 4 in let f := at_ st 5 in
  let g := at_ st 6 in let h := at_ st 7 in
  let t1 := add32 (add32 (add32 h (Sigma1 e)) (add32 (Ch e f g) (fst kw)))
                  (snd kw) in
  let t2 := add32 (Sigma0 a) (Maj a b c) in
  [add32 t1 t2; a; b; c; add32 d t1; e; f; g].

Definition compress (h : list Z) (block : list Z) : list Z :=
  let w16 := words 16 block in
  let w := w16 ++ schedule 48 w16 in
  let st := fold_left round (combine K w) h in
  map (fun p => add32 (fst p) (snd p)) (combine h st).

Fixpoint blocks (n : nat) (h : list Z) (bs : list Z) : list Z :=
  match n with
  | O => h
  | S n' => blocks n' (compress h (firstn 64 bs)) (skipn 64 bs)
  end.

(** [hashlib.sha256(msg).digest()]. *)
Definition digest (msg : list Z) : list Z :=
  let p := pad msg in
  let h := blocks (Nat.div (length p) 64) H0 p in
  flat_map (be_bytes 4) h.

Definition hex_digit (d : Z) : ascii :=
  nth (Z.to_nat d)
      (list_ascii_of_string "0123456789abcdef") "f"%char.

Fixpoint hex (bs : list Z) : string :=
  match bs with
  | [] => EmptyString
  | b :: bs' =>
      String (hex_digit (Z.shiftr b 4 mod 16))
             (String (hex_digit (b mod 16)) (hex bs'))
  end.

(** [hashlib.sha256(msg).hexdigest()]. *)
Definition hexdigest (msg : list Z) : string := hex (digest msg).

(** [hmac.new(key, msg, hashlib.sha256).digest()]. *)
Definition hmac (key msg : list Z) : list Z :=
  let k0 := if (64 <? length key)%nat then digest key else key in
  let k := k0 ++ repeat 0 (64 - length k0) in
  let ipad := map (Z.lxor 54) k in
  let opad := map (Z.lxor 92) k in
  digest (opad ++ digest (ipad ++ msg)).

Definition hmac_hexdigest (key msg : list Z) : string := hex (hmac key msg).

End Sha256.


(** ** Exceptions and results *)

Inductive exn_class : Set :=
| Exception
| SecurityError
| TokenExpiredError
| InvalidSignatureError
| NonceReusedError
| InvalidTimestampError
| DoesNotExist
| IntegrityError
| ValueError
| TypeError.

Definition exn_class_eqb (a b : exn_class) : bool :=
  match a, b with
  | Exception, Exception | SecurityError, SecurityError
  | TokenExpiredError, TokenExpiredError
  | InvalidSignatureError, InvalidSignatureError
  | NonceReusedError, NonceReusedError
  | InvalidTimestampError, InvalidTimestampError
  | DoesNotExist, DoesNotExist | IntegrityError, IntegrityError
  | ValueError, ValueError | TypeError, TypeError => true
  | _, _ => false
  end.

(** The class hierarchy of [services.py]: the four specific errors derive
    from [SecurityError], and everything derives from [Exception]. *)
Definition issubclass (a b : exn_class) : bool :=
  match b with
  | Exception => true
  | SecurityError =>
      match a with
      | SecurityError | TokenExpiredError | InvalidSignatureError
      | NonceReusedError | InvalidTimestampError => true
      | _ => false
      end
  | _ => exn_class_eqb a b
  end.

(** A raised exception: its class and [str(e)]. *)
Record exn : Set := raise_ { class_of : exn_class; str_of : string }.

Definition isinstance (e : exn) (c : exn_class) : bool :=
  issubclass (class_of e) c.

Inductive outcome (A : Type) : Type :=
| Return (a : A)
| Raise (e : exn).
Arguments Return {A} a.
Arguments Raise {A} e.

(** Sequencing of code without state: an exception of [m] propagates. *)
Definition and_then {A B : Type} (m : outcome A) (k : A -> outcome B)
    : outcome B :=
  match m with
  | Return a => k a
  | Raise e => Raise e
  end.

Notation "'let!' x := m 'in' k" := (and_then m (fun x => k))
  (at level 10, x name, m at level 100, k at level 200).

(** [try: x = m  except c as e: h(e)  else: k(x)], for code without state. *)
Definition try_pure {A B : Type} (m : outcome A) (c : exn_class)
    (h : exn -> outcome B) (k : A -> outcome B) : outcome B :=
  match m with
  | Return a => k a
  | Raise e => if isinstance e c then h e else Raise e
  end.

(** ** [django.conf.settings] *)

Record Settings : Type := {
  DEBUG : option bool;
  FRONTEND_URL : option string;
  API_CHALLENGE_TOKEN_EXPIRY : option Z;
  API_REQUEST_TIMESTAMP_TOLERANCE : option Z
}.

(** [getattr(settings, name, d)]. *)
Definition getattr {A : Type} (field : option A) (d : A) : A := default d field.

(** ** Time *)

(** [timedelta(seconds=n)], in microseconds. *)
Definition timedelta (seconds : Z) : Z := 1000000 * seconds.

(** [int(now.timestamp())]: whole seconds, truncated. *)
Definition timestamp (now : Z) : Z := Z.quot now 1000000.

(** ** [security/models.py] *)

Module ApiChallengeToken.

Record t : Type := {
  id : N;
  token : string;
  secret : string;
  created_at : Z;
  expires_at : Z;
  is_revoked : bool;
  ip_address : option string
}.

(** [timezone.now() > self.expires_at] *)
Definition is_expired (now : Z) (self : t) : bool := expires_at self <? now.

(** [not self.is_expired and not self.is_revoked] *)
Definition is_valid (now : Z) (self : t) : bool :=
  negb (is_expired now self) && negb (is_revoked self).

(** [self.is_revoked = True] *)
Definition revoke (self : t) : t :=
  {| id := id self; token := token self; secret := secret self;
     created_at := created_at self; expires_at := expires_at self;
     is_revoked := true; ip_address := ip_address self |}.

End ApiChallengeToken.

Module ApiNonce.

Record t : Type := {
  nonce : string;
  token : N;
  used_at : Z;
  expires_at : Z
}.

Definition is_expired (now : Z) (self : t) : bool := expires_at self <? now.

End ApiNonce.

(** ** The durable store and the cache *)

Record cache_entry : Type := { cache_value : bool; cache_expiry : Z }.

(** The table of tokens and the table of nonces, each keyed by its unique
    column ([token], [nonce]), and the cache. *)
Record store : Type := {
  tokens : gmap string ApiChallengeToken.t;
  nonces : gmap string ApiNonce.t;
  cache : gmap string cache_entry
}.

Definition set_nonces (s : store) (n : gmap string ApiNonce.t) : store :=
  {| tokens := tokens s; nonces := n; cache := cache s |}.

Definition set_cache (s : store) (c : gmap string cache_entry) : store :=
  {| tokens := tokens s; nonces := nonces s; cache := c |}.


(** [cache.get(key)]: the value, unless the entry is absent or has expired. *)
Definition cache_get (now : Z) (key : string) (s : store) : option bool :=
  match cache s !! key with
  | Some e => if cache_expiry e <=? now then None else Some (cache_value e)
  | None => None
  end.

(** [cache.set(key, value, timeout=seconds)]. *)
Definition cache_set (now : Z) (key : string) (value : bool) (seconds : Z)
    (s : store) : store :=
  set_cache s (<[key := {| cache_value := value;
                           cache_expiry := now + timedelta seconds |}]> (cache s)).

(** [ApiChallengeToken.objects.get(token=token_string)]. *)
Definition token_objects_get (token_string : string) (s : store)
    : outcome ApiChallengeToken.t :=
  match tokens s !! token_string with
  | Some row => Return row
  | None => Raise (raise_ DoesNotExist
                     "ApiChallengeToken matching query does not exist.")
  end.

(** [ApiNonce.objects.filter(nonce=nonce).exists()]. *)
Definition nonce_objects_exists (nonce : string) (s : store) : bool :=
  bool_decide (is_Some (nonces s !! nonce)).

(** The error of an insert that meets the unique column's constraint; its
    text is the one of the SQLite backend. *)
Definition integrity_error : exn :=
  raise_ IntegrityError "UNIQUE constraint failed: security_apinonce.nonce".

(** [ApiNonce.objects.create(nonce=..., token=..., expires_at=...)]: the
    insert fails on the unique column when the value is already there. *)
Definition nonce_objects_create (now : Z) (nonce : string)
    (token_obj : ApiChallengeToken.t) (expires_at : Z) (s : store)
    : outcome ApiNonce.t * store :=
  match nonces s !! nonce with
  | Some _ => (Raise integrity_error, s)
  | None =>
      let row := {| ApiNonce.nonce := nonce;
                    ApiNonce.token := ApiChallengeToken.id token_obj;
                    ApiNonce.used_at := now;
                    ApiNonce.expires_at := expires_at |} in
      (Return row, set_nonces s (<[nonce := row]> (nonces s)))
  end.

(** ** Stateful code: a function of the store that returns or raises *)

Definition M (A : Type) : Type := store -> outcome A * store.

Definition ret {A : Type} (a : A) : M A := fun s => (Return a, s).

Definition throw {A : Type} (e : exn) : M A := fun s => (Raise e, s).

Definition bind {A B : Type} (m : M A) (k : A -> M B) : M B :=
  fun s => match m s with
           | (Return a, s') => k a s'
           | (Raise e, s') => (Raise e, s')
           end.

(** A computation that only reads the store. *)
Definition reads {A : Type} (f : store -> outcome A) : M A :=
  fun s => (f s, s).

(** A computation that only writes it. *)
Definition writes (f : store -> store) : M unit :=
  fun s => (Return tt, f s).

(** [try: x = m  except c as e: h(e)  else: k(x)]. *)
Definition try_except {A B : Type} (m : M A) (c : exn_class)
    (h : exn -> M B) (k : A -> M B) : M B :=
  fun s => match m s with
           | (Return a, s') => k a s'
           | (Raise e, s') => if isinstance e c then h e s' else (Raise e, s')
           end.

(** [try: m  except c as e: h(e)], the handler's value being the result. *)
Definition handle {A : Type} (m : M A) (c : exn_class) (h : exn -> M A) : M A :=
  try_except m c h ret.

Notation "'do' x <- m ; k" := (bind m (fun x => k))
  (at level 10, x name, m at level 100, k at level 200).

(** ** [urllib.parse.urlparse]

    The two components that the origin check reads.  The parser belongs to
    the interpreter's library and raises [ValueError] on some inputs ([None]
    here); the gate is modelled for any such parser. *)

Record ParseResult : Type := { scheme : string; netloc : string }.

Definition urlparser : Type := string -> option ParseResult.

Definition parse_url (urlparse : urlparser) (url : string)
    : outcome ParseResult :=
  match urlparse url with
  | Some parsed => Return parsed
  | None => Raise (raise_ ValueError "Invalid IPv6 URL")
  end.

(** ** The request and the response *)

Record HttpRequest : Type := {
  path : string;
  method : string;
  META : gmap string string;
  body : string
}.

Record JsonResponse : Type := {
  data : list (string * string);
  status : Z
}.

(** [hmac.compare_digest(a, b)] on two [str]: equality, and [TypeError] when
    either holds a character past ASCII. *)
Definition compare_digest (a b : string) : outcome bool :=
  if Py.isascii a && Py.isascii b then Return (String.eqb a b)
  else Raise (raise_ TypeError
                "comparing strings with non-ASCII characters is not supported").

Section Security.

Variable settings : Settings.
Variable urlparse : urlparser.

(** *** [security/services.py] *)

Definition validate_token (now : Z) (token_string : string) (s : store)
    : outcome ApiChallengeToken.t :=
  try_pure (token_objects_get token_string s) DoesNotExist
    (fun _ => Raise (raise_ TokenExpiredError "Invalid token"))
    (fun token_obj =>
       if negb (ApiChallengeToken.is_valid now token_obj)
       then Raise (raise_ TokenExpiredError "Token expired or revoked")
       else Return token_obj).

Definition get_token_secret (now : Z) (token_string : string) (s : store)
    : outcome string :=
  let! token_obj := validate_token now token_string s in
  Return (ApiChallengeToken.secret token_obj).

(** [f"{token}|{timestamp}|{nonce}|{method}|{path}|{body_hash}"] *)
Definition signature_string
    (token timestamp nonce method path body_hash : string) : string :=
  token +:+ "|" +:+ timestamp +:+ "|" +:+ nonce +:+ "|" +:+ method
        +:+ "|" +:+ path +:+ "|" +:+ body_hash.

Definition calculate_signature
    (token secret timestamp nonce method path body_hash : string) : string :=
  Sha256.hmac_hexdigest
    (Py.encode_utf8 secret)
    (Py.encode_utf8
       (signature_string token timestamp nonce method path body_hash)).

Definition validate_signature (now : Z)
    (token timestamp nonce method path body_hash signature : string)
    (s : store) : outcome bool :=
  try_pure (get_token_secret now token s) TokenExpiredError
    (fun _ => Raise (raise_ InvalidSignatureError "Invalid or expired token"))
    (fun secret =>
       let expected_signature :=
         calculate_signature token secret timestamp nonce method path
                             body_hash in
       let! equal := compare_digest expected_signature signature in
       if negb equal
       then Raise (raise_ InvalidSignatureError "Invalid signature")
       else Return true).

(** The text of the out-of-tolerance error; the two characters before the
    number are the code points 194 and 177 of the source's literal. *)
Definition outside_tolerance_message (tolerance : Z) : string :=
  "Timestamp outside tolerance window ("
    +:+ String (Py.chr 194) (String (Py.chr 177) EmptyString)
    +:+ Py.str_of_int tolerance +:+ "s)".

Definition validate_timestamp (now : Z) (timestamp_str : string)
    : outcome Z :=
  match Py.int_of_str timestamp_str with
  | None => Raise (raise_ InvalidTimestampError "Invalid timestamp format")
  | Some timestamp_ =>
      let current_time := timestamp now in
      let tolerance := getattr (API_REQUEST_TIMESTAMP_TOLERANCE settings) 60 in
      let time_diff := Z.abs (current_time - timestamp_) in
      if tolerance <? time_diff
      then Raise (raise_ InvalidTimestampError
                    (outside_tolerance_message tolerance))
      else Return timestamp_
  end.

Definition nonce_cache_key (nonce : string) : string := "api_nonce:" +:+ nonce.

Definition nonce_expiry_seconds : Z :=
  Z.max (getattr (API_CHALLENGE_TOKEN_EXPIRY settings) 300) 300.

Definition nonce_reused : exn :=
  raise_ NonceReusedError "Nonce has already been used".

Definition check_nonce (now : Z) (token_obj : ApiChallengeToken.t)
    (nonce : string) : M ApiNonce.t :=
  let cache_key := nonce_cache_key nonce in
  do hit <- reads (fun s => Return (cache_get now cache_key s));
  if Py.truthy_obj hit then throw nonce_reused
  else
    do found <- reads (fun s => Return (nonce_objects_exists nonce s));
    if found then throw nonce_reused
    else
      let expires_at := now + timedelta nonce_expiry_seconds in
      do nonce_obj <- nonce_objects_create now nonce token_obj expires_at;
      do _ <- writes (cache_set now cache_key true nonce_expiry_seconds);
      ret nonce_obj.

(** A nonce is registered when its row is in the table or its flag is
    live in the cache. *)
Definition registered (now : Z) (nonce : string) (s : store) : Prop :=
  is_Some (nonces s !! nonce)
  \/ cache_get now (nonce_cache_key nonce) s = Some true.

(** The row that a successful call inserts. *)
Definition nonce_row (now : Z) (token_obj : ApiChallengeToken.t)
    (nonce : string) : ApiNonce.t :=
  {| ApiNonce.nonce := nonce;
     ApiNonce.token := ApiChallengeToken.id token_obj;
     ApiNonce.used_at := now;
     ApiNonce.expires_at := now + timedelta nonce_expiry_seconds |}.

(** The store after a successful call. *)
Definition store_with_nonce (now : Z) (token_obj : ApiChallengeToken.t)
    (nonce : string) (s : store) : store :=
  cache_set now (nonce_cache_key nonce) true nonce_expiry_seconds
    (set_nonces s (<[nonce := nonce_row now token_obj nonce]> (nonces s))).

Definition hash_body (body_bytes : string) : string :=
  if negb (Py.truthy body_bytes) then ""
  else Sha256.hexdigest (Py.bytes_of body_bytes).

Definition localhost_variants : list string :=
  [ "http://localhost:3000"; "http://127.0.0.1:3000";
    "http://localhost:5173"; "http://127.0.0.1:5173" ].

Definition validate_origin (request : HttpRequest) : outcome bool :=
  let origin :=
    Py.or_else (META request !! "HTTP_ORIGIN")
               (default "" (META request !! "HTTP_REFERER")) in
  let! origin :=
    if Py.startswith origin "http"
    then let! parsed := parse_url urlparse origin in
         Return (scheme parsed +:+ "://" +:+ netloc parsed)
    else Return origin in
  let frontend_url := getattr (FRONTEND_URL settings) "" in
  if negb (Py.truthy frontend_url) then
    if getattr (DEBUG settings) false then Return true
    else Raise (raise_ SecurityError "FRONTEND_URL not configured")
  else
    let origin := Py.rstrip_slash origin in
    let frontend_url := Py.rstrip_slash frontend_url in
    if negb (String.eqb origin frontend_url) then
      if getattr (DEBUG settings) false
         && Py.str_in origin localhost_variants
      then Return true
      else Raise (raise_ SecurityError ("Invalid origin: " +:+ origin))
    else Return true.

(** *** [security/middleware.py] *)

Definition EXCLUDED_PATHS : list string :=
  [ "/api/security/challenge/"; "/admin/"; "/health/"; "/api/" ].

Definition EXCLUDED_PREFIXES : list string :=
  [ "/admin/"; "/static/"; "/media/" ].

Definition _should_skip_validation (path : string) : bool :=
  if Py.str_in path EXCLUDED_PATHS then true
  else existsb (Py.startswith path) EXCLUDED_PREFIXES.

(** [JsonResponse({'error': message}, status=code)] *)
Definition error_response (message : string) (code : Z) : JsonResponse :=
  {| data := [("error", message)]; status := code |}.

(** The body of the [try] of [process_request]: each step either lets the
    request go on or answers it.  [check] is the call of [check_nonce],
    which runs on its own or with the accesses of other requests between
    its own. *)
Definition validate_request_with
    (check : Z -> ApiChallengeToken.t -> string -> M ApiNonce.t)
    (now : Z) (request : HttpRequest) : M (option JsonResponse) :=
  do _ <- reads (fun _ => validate_origin request);
  let token := META request !! "HTTP_X_API_CHALLENGE_TOKEN" in
  let timestamp := META request !! "HTTP_X_API_TIMESTAMP" in
  let nonce := META request !! "HTTP_X_API_NONCE" in
  let signature := META request !! "HTTP_X_API_SIGNATURE" in
  if negb (forallb Py.truthy_opt [token; timestamp; nonce; signature]) then
    ret (Some (error_response "Missing required security headers" 401))
  else
    let token := Py.the token in
    let timestamp := Py.the timestamp in
    let nonce := Py.the nonce in
    let signature := Py.the signature in
    try_except (reads (validate_token now token)) TokenExpiredError
      (fun _ => ret (Some (error_response "Invalid or expired token" 401)))
      (fun token_obj =>
    try_except (reads (fun _ => validate_timestamp now timestamp))
      InvalidTimestampError
      (fun e => ret (Some (error_response (str_of e) 401)))
      (fun _ =>
    try_except (check now token_obj nonce) NonceReusedError
      (fun _ => ret (Some (error_response "Nonce has already been used" 401)))
      (fun _ =>
    let body_hash := hash_body (body request) in
    let method := method request in
    let path := path request in
    try_except
      (reads (validate_signature now token timestamp nonce method path
                                 body_hash signature))
      InvalidSignatureError
      (fun _ => ret (Some (error_response "Invalid signature" 401)))
      (fun _ => ret None)))).

(** The two [except] clauses that close the [try]. *)
Definition rejected (e : exn) : JsonResponse :=
  if isinstance e SecurityError then error_response (str_of e) 401
  else if getattr (DEBUG settings) false
       then error_response ("Security validation error: " +:+ str_of e) 500
       else error_response "Security validation failed" 500.

Definition process_request_with
    (check : Z -> ApiChallengeToken.t -> string -> M ApiNonce.t)
    (now : Z) (request : HttpRequest) : M (option JsonResponse) :=
  if _should_skip_validation (path request) then ret None
  else if String.eqb (method request) "OPTIONS" then ret None
  else if negb (Py.startswith (path request) "/api/") then ret None
  else if Py.contains "/webhook/" (path request) then ret None
  else handle (validate_request_with check now request) Exception
         (fun e => ret (Some (rejected e))).

Definition process_request : Z -> HttpRequest -> M (option JsonResponse) :=
  process_request_with check_nonce.

(** The request is one the gate validates. *)
Definition gated (request : HttpRequest) : bool :=
  negb (_should_skip_validation (path request))
  && negb (String.eqb (method request) "OPTIONS")
  && Py.startswith (path request) "/api/"
  && negb (Py.contains "/webhook/" (path request)).

Definition required_headers : list string :=
  [ "HTTP_X_API_CHALLENGE_TOKEN"; "HTTP_X_API_TIMESTAMP";
    "HTTP_X_API_NONCE"; "HTTP_X_API_SIGNATURE" ].

Definition headers_present (request : HttpRequest) : bool :=
  forallb (fun h => Py.truthy_opt (META request !! h)) required_headers.

Definition header (request : HttpRequest) (name : string) : string :=
  Py.the (META request !! name).

(** The first check that a request fails, the checks taken in the order
    of [process_request]: a header is missing, or a validator raises. *)
Inductive failure : Type :=
| MissingHeaders
| Raised (e : exn).

Definition first_failure (now : Z) (request : HttpRequest) (s : store)
    : option failure :=
  match validate_origin request with
  | Raise e => Some (Raised e)
  | Return _ =>
  if negb (headers_present request) then Some MissingHeaders else
  let token := header request "HTTP_X_API_CHALLENGE_TOKEN" in
  let timestamp := header request "HTTP_X_API_TIMESTAMP" in
  let nonce := header request "HTTP_X_API_NONCE" in
  let signature := header request "HTTP_X_API_SIGNATURE" in
  match validate_token now token s with
  | Raise e => Some (Raised e)
  | Return token_obj =>
  match validate_timestamp now timestamp with
  | Raise e => Some (Raised e)
  | Return _ =>
  match check_nonce now token_obj nonce s with
  | (Raise e, _) => Some (Raised e)
  | (Return _, s') =>
  match validate_signature now token timestamp nonce (method request)
          (path request) (hash_body (body request)) signature s' with
  | Raise e => Some (Raised e)
  | Return _ => None
  end end end end end.

(** A failure of the authentication category: a missing header or an
    exception of the [SecurityError] family. *)
Definition authentication_failure (f : failure) : bool :=
  match f with
  | MissingHeaders => true
  | Raised e => isinstance e SecurityError
  end.

(** The answer of the gate to each failure: the [except] clause that
    catches it. *)
Definition response_for (f : failure) : JsonResponse :=
  match f with
  | MissingHeaders => error_response "Missing required security headers" 401
  | Raised e =>
      match class_of e with
      | TokenExpiredError => error_response "Invalid or expired token" 401
      | InvalidTimestampError => error_response (str_of e) 401
      | NonceReusedError => error_response "Nonce has already been used" 401
      | InvalidSignatureError => error_response "Invalid signature" 401
      | _ => rejected e
      end
  end.

(** The request with one entry of [META] removed. *)
Definition without_header (name : string) (request : HttpRequest)
    : HttpRequest :=
  {| path := path request; method := method request;
     META := delete name (META request); body := body request |}.

(** *** Concurrent calls of [check_nonce]

    A call runs its four accesses to the cache and to the table one at a
    time; between two of them other calls may run theirs. *)

Inductive position : Type :=
| AtCacheGet
| AtExists
| AtCreate
| AtCacheSet (nonce_obj : ApiNonce.t)
| Finished (result : outcome ApiNonce.t).

Record call : Type := {
  call_now : Z;
  call_token_obj : ApiChallengeToken.t;
  call_nonce : string;
  call_at : position
}.

Definition move (c : call) (p : position) : call :=
  {| call_now := call_now c; call_token_obj := call_token_obj c;
     call_nonce := call_nonce c; call_at := p |}.

(** One access of one call. *)
Definition step (c : call) (s : store) : call * store :=
  let now := call_now c in
  let nonce := call_nonce c in
  let cache_key := nonce_cache_key nonce in
  match call_at c with
  | AtCacheGet =>
      if Py.truthy_obj (cache_get now cache_key s)
      then (move c (Finished (Raise nonce_reused)), s)
      else (move c AtExists, s)
  | AtExists =>
      if nonce_objects_exists nonce s
      then (move c (Finished (Raise nonce_reused)), s)
      else (move c AtCreate, s)
  | AtCreate =>
      let expires_at := now + timedelta nonce_expiry_seconds in
      match nonce_objects_create now nonce (call_token_obj c) expires_at s with
      | (Return nonce_obj, s') => (move c (AtCacheSet nonce_obj), s')
      | (Raise e, s') => (move c (Finished (Raise e)), s')
      end
  | AtCacheSet nonce_obj =>
      (move c (Finished (Return nonce_obj)),
       cache_set now cache_key true nonce_expiry_seconds s)
  | Finished _ => (c, s)
  end.

(** The calls in flight and the store they share. *)
Definition world : Type := list call * store.

(** The scheduler lets call number [i] make one access. *)
Definition schedule_one (w : world) (i : nat) : world :=
  match fst w !! i with
  | Some c => let (c', s') := step c (snd w) in (<[i := c']> (fst w), s')
  | None => w
  end.

Definition run (schedule : list nat) (w : world) : world :=
  fold_left schedule_one schedule w.

(** A call of [check_nonce] in which the accesses [others] of other
    requests fall between its look-up and its insert. *)
Definition check_nonce_interleaved (others : store -> store) (now : Z)
    (token_obj : ApiChallengeToken.t) (nonce : string) : M ApiNonce.t :=
  let cache_key := nonce_cache_key nonce in
  do hit <- reads (fun s => Return (cache_get now cache_key s));
  if Py.truthy_obj hit then throw nonce_reused
  else
    do found <- reads (fun s => Return (nonce_objects_exists nonce s));
    if found then throw nonce_reused
    else
      do _ <- writes others;
      let expires_at := now + timedelta nonce_expiry_seconds in
      do nonce_obj <- nonce_objects_create now nonce token_obj expires_at;
      do _ <- writes (cache_set now cache_key true nonce_expiry_seconds);
      ret nonce_obj.

Definition result_of (c : call) : option (outcome ApiNonce.t) :=
  match call_at c with Finished r => Some r | _ => None end.

(** The call has inserted its row. *)
Definition accepted (c : call) : bool :=
  match call_at c with
  | AtCacheSet _ | Finished (Return _) => true
  | _ => false
  end.

(** The call has not reached its insert yet. *)
Definition waiting (c : call) : bool :=
  match call_at c with
  | AtCacheGet | AtExists | AtCreate => true
  | _ => false
  end.

Definition finished (c : call) : bool :=
  match call_at c with Finished _ => true | _ => false end.

(** The calls of a list all present the nonce [n] and none has made an
    access yet. *)
Definition fresh_calls (n : string) (calls : list call) : Prop :=
  Forall (fun c => call_nonce c = n /\ call_at c = AtCacheGet) calls.

(** Every call presents [n]; a call that has inserted its row finds it in
    the table; no two calls have inserted one. *)
Definition single_insert (n : string) (w : world) : Prop :=
  (forall i c, fst w !! i = Some c -> call_nonce c = n)
  /\ (forall i c, fst w !! i = Some c -> accepted c = true ->
      is_Some (nonces (snd w) !! n))
  /\ (forall i j ci cj,
        fst w !! i = Some ci -> fst w !! j = Some cj ->
        accepted ci = true -> accepted cj = true -> i = j).

(** No call has reached its insert and the nonce is nowhere, or some call
    has inserted its row. *)
Definition waiting_or_inserted (n : string) (w : world) : Prop :=
  (nonces (snd w) !! n = None
   /\ cache (snd w) !! nonce_cache_key n = None
   /\ forall i c, fst w !! i = Some c -> waiting c = true)
  \/ (exists i c, fst w !! i = Some c /\ accepted c = true).

(** A call that failed was refused for a used nonce or met the
    constraint. *)
Definition failures_known (w : world) : Prop :=
  forall i c e, fst w !! i = Some c -> call_at c = Finished (Raise e) ->
    e = nonce_reused \/ e = integrity_error.

End Security.

Arguments calculate_signature : simpl never.
Arguments hash_body : simpl never.
Arguments outside_tolerance_message : simpl never.

(** ** A deployment to evaluate the gate on *)

Module Example.

Definition settings : Settings :=
  {| DEBUG := Some false;
     FRONTEND_URL := Some "https://shop.example/";
     API_CHALLENGE_TOKEN_EXPIRY := Some 300;
     API_REQUEST_TIMESTAMP_TOLERANCE := Some 60 |}.

(** A parser that knows the two origins of the examples. *)
Definition urlparse : urlparser :=
  fun url =>
    if String.eqb url "https://shop.example"
    then Some {| scheme := "https"; netloc := "shop.example" |}
    else if String.eqb url "https://evil.example/page"
    then Some {| scheme := "https"; netloc := "evil.example" |}
    else None.

(** A token issued at instant 0 for 300 seconds. *)
Definition tok : ApiChallengeToken.t :=
  {| ApiChallengeToken.id := 1;
     ApiChallengeToken.token := "tok";
     ApiChallengeToken.secret := "sec";
     ApiChallengeToken.created_at := 0;
     ApiChallengeToken.expires_at := timedelta 300;
     ApiChallengeToken.is_revoked := false;
     ApiChallengeToken.ip_address := None |}.

Definition tok2 : ApiChallengeToken.t :=
  {| ApiChallengeToken.id := 2;
     ApiChallengeToken.token := "tok2";
     ApiChallengeToken.secret := "other";
     ApiChallengeToken.created_at := 0;
     ApiChallengeToken.expires_at := timedelta 300;
     ApiChallengeToken.is_revoked := false;
     ApiChallengeToken.ip_address := None |}.

Definition s0 : store :=
  {| tokens := {[ "tok" := tok; "tok2" := tok2 ]}; nonces := ∅; cache := ∅ |}.

Definition request (origin : string) (headers : list (string * string))
    : HttpRequest :=
  {| path := "/api/orders/"; method := "POST";
     META := list_to_map (("HTTP_ORIGIN", origin) :: headers);
     body := "" |}.

Definition signed (timestamp nonce signature : string) : HttpRequest :=
  request "https://shop.example"
    [ ("HTTP_X_API_CHALLENGE_TOKEN", "tok");
      ("HTTP_X_API_TIMESTAMP", timestamp);
      ("HTTP_X_API_NONCE", nonce);
      ("HTTP_X_API_SIGNATURE", signature) ].

(** The signature of the request of instant 10 with nonce [n1]. *)
Definition sig_n1 : string :=
  "b3dc4b5c6457d27eec353415908adf8e250ad055af13755f63449f7544c01cdb".

Definition call_of (now : Z) (nonce : string) : call :=
  {| call_now := now; call_token_obj := tok; call_nonce := nonce;
     call_at := AtCacheGet |}.

End Example.

(** ** Issuing and revoking tokens, the issuance view and the CSRF switch *)

(** [str.strip()] and the head of [str.split(',')]. *)
Module PyStr.

(** The white space of [str.strip()] among the code points below 256. *)
Definition isspace (c : ascii) : bool :=
  let n := Py.ord c in
  ((9 <=? n) && (n <=? 13)) || ((28 <=? n) && (n <=? 32))
  || (n =? 133) || (n =? 160).

Fixpoint lstrip (s : string) : string :=
  match s with
  | String c s' => if isspace c then lstrip s' else s
  | EmptyString => EmptyString
  end.

Fixpoint rstrip (s : string) : string :=
  match s with
  | EmptyString => EmptyString
  | String c s' =>
      match rstrip s' with
      | EmptyString => if isspace c then EmptyString else String c EmptyString
      | r => String c r
      end
  end.

(** [s.strip()] *)
Definition strip (s : string) : string := rstrip (lstrip s).

(** [s.split(',')[0]]: the text before the first comma. *)
Fixpoint split_comma_head (s : string) : string :=
  match s with
  | EmptyString => EmptyString
  | String c s' =>
      if Ascii.eqb c "," then EmptyString else String c (split_comma_head s')
  end.

End PyStr.

Definition set_tokens (s : store) (t : gmap string ApiChallengeToken.t)
    : store :=
  {| tokens := t; nonces := nonces s; cache := cache s |}.

(** Some row of the token table has the primary key [i]. *)
Definition id_in_use (i : N) (s : store) : bool :=
  negb (bool_decide
          (map_Forall (fun _ row => ApiChallengeToken.id row <> i) (tokens s))).

(** The primary keys of the token table are distinct. *)
Definition ids_unique (s : store) : Prop :=
  forall k1 k2 r1 r2,
    tokens s !! k1 = Some r1 -> tokens s !! k2 = Some r2 ->
    ApiChallengeToken.id r1 = ApiChallengeToken.id r2 -> k1 = k2.

(** [ApiChallengeToken.objects.create(token=..., secret=..., expires_at=...,
    ip_address=...)]: the insert fails when the primary key or the unique
    [token] is already there; [created_at] is the instant of the insert. *)
Definition token_objects_create (uuid : N) (now : Z) (token secret : string)
    (expires_at : Z) (ip_address : option string)
    : M ApiChallengeToken.t :=
  fun s =>
    if id_in_use uuid s then
      (Raise (raise_ IntegrityError
                "UNIQUE constraint failed: security_apichallengetoken.id"), s)
    else
      match tokens s !! token with
      | Some _ =>
          (Raise (raise_ IntegrityError
                    "UNIQUE constraint failed: security_apichallengetoken.token"),
           s)
      | None =>
          let row :=
            {| ApiChallengeToken.id := uuid;
               ApiChallengeToken.token := token;
               ApiChallengeToken.secret := secret;
               ApiChallengeToken.created_at := now;
               ApiChallengeToken.expires_at := expires_at;
               ApiChallengeToken.is_revoked := false;
               ApiChallengeToken.ip_address := ip_address |} in
          (Return row, set_tokens s (<[token := row]> (tokens s)))
      end.

(** The row with its [is_revoked] column set. *)
Definition with_is_revoked (b : bool) (row : ApiChallengeToken.t)
    : ApiChallengeToken.t :=
  {| ApiChallengeToken.id := ApiChallengeToken.id row;
     ApiChallengeToken.token := ApiChallengeToken.token row;
     ApiChallengeToken.secret := ApiChallengeToken.secret row;
     ApiChallengeToken.created_at := ApiChallengeToken.created_at row;
     ApiChallengeToken.expires_at := ApiChallengeToken.expires_at row;
     ApiChallengeToken.is_revoked := b;
     ApiChallengeToken.ip_address := ApiChallengeToken.ip_address row |}.

(** [self.save(update_fields=['is_revoked'])]: the column is written in the
    row of the primary key of [self]; with no such row the save raises
    (django's [DatabaseError], a plain [Exception] here). *)
Definition save_is_revoked (self : ApiChallengeToken.t) : M unit :=
  fun s =>
    if id_in_use (ApiChallengeToken.id self) s then
      (Return tt,
       set_tokens s
         ((fun row =>
             if N.eqb (ApiChallengeToken.id row) (ApiChallengeToken.id self)
             then with_is_revoked (ApiChallengeToken.is_revoked self) row
             else row) <$> tokens s))
    else
      (Raise (raise_ Exception
                "Save with update_fields did not affect any rows."), s).

(** [ApiChallengeToken.revoke]: the object is marked and saved; the marked
    object is the result. *)
Definition token_revoke (self : ApiChallengeToken.t) : M ApiChallengeToken.t :=
  let self := ApiChallengeToken.revoke self in
  do _ <- save_is_revoked self;
  ret self.

(** The loop of the admin action [revoke_tokens] over the rows of the
    queryset. *)
Fixpoint revoke_each (queryset : list ApiChallengeToken.t) (count : Z)
    : M Z :=
  match queryset with
  | [] => ret count
  | token :: rest =>
      if negb (ApiChallengeToken.is_revoked token) then
        do _ <- token_revoke token;
        revoke_each rest (count + 1)
      else revoke_each rest count
  end.

(** [ApiChallengeTokenAdmin.revoke_tokens]: the result is the message shown
    to the user. *)
Definition revoke_tokens (queryset : list ApiChallengeToken.t) : M string :=
  do count <- revoke_each queryset 0;
  ret (Py.str_of_int count +:+ " token(s) revoked.").

(** [DisableCSRFForAPI.process_request]: the attributes set on the request
    are a map beside it. *)
Definition DisableCSRFForAPI_process_request (request : HttpRequest)
    (attrs : gmap string bool) : option JsonResponse * gmap string bool :=
  (None,
   if Py.startswith (path request) "/api/"
   then <["_dont_enforce_csrf_checks" := true]> attrs
   else attrs).

(** A value of the body of a REST response. *)
Inductive json : Type :=
| JStr (s : string)
| JInt (n : Z).

Record Response : Type := {
  response_data : list (string * json);
  status_code : Z
}.

(** [ChallengeView._get_client_ip] *)
Definition _get_client_ip (request : HttpRequest) : option string :=
  let x_forwarded_for := META request !! "HTTP_X_FORWARDED_FOR" in
  if Py.truthy_opt x_forwarded_for
  then Some (PyStr.strip (PyStr.split_comma_head (Py.the x_forwarded_for)))
  else META request !! "REMOTE_ADDR".

(** The origin that [validate_origin] compares, before its trailing slashes
    are removed. *)
Definition presented_origin (urlparse : urlparser) (request : HttpRequest)
    : outcome string :=
  let origin :=
    Py.or_else (META request !! "HTTP_ORIGIN")
               (default "" (META request !! "HTTP_REFERER")) in
  if Py.startswith origin "http"
  then let! parsed := parse_url urlparse origin in
       Return (scheme parsed +:+ "://" +:+ netloc parsed)
  else Return origin.

Section Issuing.

Variable settings : Settings.
Variable urlparse : urlparser.

(** [datetime.isoformat], which belongs to the interpreter's library. *)
Variable isoformat : Z -> string.

(** [ChallengeTokenService.generate_token]. The three random draws of the
    call (the primary key and the two [secrets.token_urlsafe(32)]) are its
    arguments [uuid], [token] and [secret]. *)
Definition generate_token (now : Z) (uuid : N) (token secret : string)
    (ip_address : option string) : M (string * ApiChallengeToken.t) :=
  let expiry_seconds := getattr (API_CHALLENGE_TOKEN_EXPIRY settings) 300 in
  let expires_at := now + timedelta expiry_seconds in
  do token_obj <- token_objects_create uuid now token secret expires_at
                    ip_address;
  ret (token, token_obj).

Definition rest_error (message : string) (code : Z) : Response :=
  {| response_data := [("error", JStr message)]; status_code := code |}.

(** [ChallengeView.post]. [now] is the instant of the insert and [later]
    the instant at which [expires_in] is computed. *)
Definition ChallengeView_post (now later : Z) (uuid : N)
    (token secret : string) (request : HttpRequest) : M Response :=
  handle
    (do forbidden <-
       try_except (reads (fun _ => validate_origin settings urlparse request))
         SecurityError
         (fun e =>
            if getattr (DEBUG settings) false then ret None
            else ret (Some (rest_error (str_of e) 403)))
         (fun _ => ret None);
     match forbidden with
     | Some response => ret response
     | None =>
         let ip_address := _get_client_ip request in
         do issued <- generate_token now uuid token secret ip_address;
         let token_string := fst issued in
         let token_obj := snd issued in
         let expires_in :=
           Z.quot (ApiChallengeToken.expires_at token_obj - later) 1000000 in
         ret {| response_data :=
                  [ ("token", JStr token_string);
                    ("secret", JStr (ApiChallengeToken.secret token_obj));
                    ("expires_at",
                     JStr (isoformat (ApiChallengeToken.expires_at token_obj)));
                    ("expires_in", JInt expires_in) ];
                status_code := 201 |}
     end)
    Exception
    (fun _ => ret (rest_error "Failed to generate challenge token" 500)).

End Issuing.

(** A string of lower-case hexadecimal digits. *)
Definition is_hex_char (c : ascii) : bool :=
  existsb (Ascii.eqb c) (list_ascii_of_string "0123456789abcdef").

Fixpoint is_hex (s : string) : bool :=
  match s with
  | EmptyString => true
  | String c s' => is_hex_char c && is_hex s'
  end.

(** The field holds no delimiter of the signing string. *)
Definition no_pipe (field : string) : bool := negb (Py.contains "|" field).

(** The rows of a queryset are rows of the table, each under its token
    string. *)
Definition rows_of (s : store) (queryset : list ApiChallengeToken.t) : Prop :=
  Forall (fun row => tokens s !! ApiChallengeToken.token row = Some row)
         queryset.

(** The rows of the queryset that the admin action has to mark. *)
Definition to_revoke (queryset : list ApiChallengeToken.t)
    : list ApiChallengeToken.t :=
  List.filter (fun row => negb (ApiChallengeToken.is_revoked row)) queryset.

(** The request with one entry of [META] set. *)
Definition with_header (name value : string) (request : HttpRequest)
    : HttpRequest :=
  {| path := path request; method := method request;
     META := <[name := value]> (META request); body := body request |}.

(** ** Sample values for the further properties *)

Module Sample.


(** A deployment without [FRONTEND_URL]. *)
Definition unconfigured : Settings :=
  {| DEBUG := Some false;
     FRONTEND_URL := None;
     API_CHALLENGE_TOKEN_EXPIRY := Some 300;
     API_REQUEST_TIMESTAMP_TOLERANCE := Some 60 |}.

Definition isoformat (instant : Z) : string := Py.str_of_int instant.

Definition evil_request : HttpRequest :=
  Example.request "https://evil.example/page" [].

End Sample.

(** * Properties *)

(** ** The library functions on known values *)

Example sha256_abc :
  Sha256.hexdigest (Py.bytes_of "abc")
  = "ba7816bf8f01cfea414140de5dae2223b00361a396177a9cb410ff61f20015ad".
Proof. vm_compute. reflexivity. Qed.

Example hmac_rfc4231_2 :
  Sha256.hmac_hexdigest (Py.encode_utf8 "Jefe")
                        (Py.encode_utf8 "what do ya want for nothing?")
  = "5bdcc146bf60754e6a042426089575c75a003f089d2739839dec58b964ec3843".
Proof. vm_compute. reflexivity. Qed.

Example sha256_empty :
  Sha256.hexdigest []
  = "e3b0c44298fc1c149afbf4c8996fb92427ae41e4649b934ca495991b7852b855".
Proof. vm_compute. reflexivity. Qed.

Example hash_body_empty : hash_body "" = "".
Proof. reflexivity. Qed.

Example hash_body_braces :
  hash_body "{}"
  = "44136fa355b3678a1146ad16f7e8649e94fb4fc21fe77e8310c060f61caaff8a".
Proof. vm_compute. reflexivity. Qed.

(** [int] accepts spaces around the number, a sign, and single underscores
    between digits, and nothing else. *)
Example int_of_str_values :
  Py.int_of_str "12" = Some 12
  /\ Py.int_of_str " 12 " = Some 12
  /\ Py.int_of_str "+12" = Some 12
  /\ Py.int_of_str "-0" = Some 0
  /\ Py.int_of_str "1_000" = Some 1000
  /\ Py.int_of_str "007" = Some 7
  /\ Py.int_of_str "" = None
  /\ Py.int_of_str "_1" = None
  /\ Py.int_of_str "1__0" = None
  /\ Py.int_of_str "1_" = None
  /\ Py.int_of_str "1 2" = None
  /\ Py.int_of_str "+ 5" = None
  /\ Py.int_of_str "0x10" = None
  /\ Py.int_of_str "1.5" = None
  /\ Py.int_of_str (String (Py.chr 160) "5") = Some 5
  /\ Py.int_of_str (String (Py.chr 28) "5") = None.
Proof. vm_compute. repeat split; reflexivity. Qed.

Example rstrip_slash_values :
  Py.rstrip_slash "https://shop.example//" = "https://shop.example"
  /\ Py.rstrip_slash "a/b" = "a/b"
  /\ Py.rstrip_slash "///" = "".
Proof. repeat split; reflexivity. Qed.

(** ** The validators *)

Section Validators.

Variable settings : Settings.

Lemma isinstance_Exception (e : exn) : isinstance e Exception = true.
Proof. reflexivity. Qed.

Lemma token_objects_get_raises token_string s e :
  token_objects_get token_string s = Raise e -> class_of e = DoesNotExist.
Proof.
  unfold token_objects_get.
  destruct (tokens s !! token_string); intros H; inversion H; reflexivity.
Qed.

(** [validate_token] by cases on the row found. *)
Lemma validate_token_found now token_string s row :
  tokens s !! token_string = Some row ->
  validate_token now token_string s
  = if ApiChallengeToken.is_valid now row then Return row
    else Raise (raise_ TokenExpiredError "Token expired or revoked").
Proof.
  intros Hrow. unfold validate_token, token_objects_get. rewrite Hrow.
  simpl. destruct (ApiChallengeToken.is_valid now row); reflexivity.
Qed.

Lemma validate_token_unknown now token_string s :
  tokens s !! token_string = None ->
  validate_token now token_string s
  = Raise (raise_ TokenExpiredError "Invalid token").
Proof.
  intros Hnone. unfold validate_token, token_objects_get. rewrite Hnone.
  reflexivity.
Qed.

Lemma validate_token_raises now token_string s e :
  validate_token now token_string s = Raise e ->
  class_of e = TokenExpiredError.
Proof.
  destruct (tokens s !! token_string) as [row|] eqn:Hrow.
  - rewrite (validate_token_found _ _ _ _ Hrow).
    destruct (ApiChallengeToken.is_valid now row); intros H; inversion H.
    reflexivity.
  - rewrite (validate_token_unknown _ _ _ Hrow). intros H; inversion H.
    reflexivity.
Qed.

Lemma validate_token_returns now token_string s row :
  validate_token now token_string s = Return row ->
  tokens s !! token_string = Some row
  /\ ApiChallengeToken.is_valid now row = true.
Proof.
  destruct (tokens s !! token_string) as [row'|] eqn:Hrow.
  - rewrite (validate_token_found _ _ _ _ Hrow).
    destruct (ApiChallengeToken.is_valid now row') eqn:Hv; intros H;
      inversion H; subst; auto.
  - rewrite (validate_token_unknown _ _ _ Hrow). intros H; inversion H.
Qed.

Lemma is_valid_iff now row :
  ApiChallengeToken.is_valid now row = true
  <-> ApiChallengeToken.is_revoked row = false
      /\ now <= ApiChallengeToken.expires_at row.
Proof.
  unfold ApiChallengeToken.is_valid, ApiChallengeToken.is_expired.
  rewrite andb_true_iff, !negb_true_iff, Z.ltb_ge. tauto.
Qed.

(** C6. A stored token is returned by [validate_token] exactly when it is
    not revoked and [now <= expires_at] (the instant [now = expires_at]
    included); otherwise [TokenExpiredError] is raised, in particular for
    a revoked token whatever its expiry, and an unknown token string
    raises the same [TokenExpiredError]. *)
Theorem validate_token_spec (now : Z) (s : store)
    (row : ApiChallengeToken.t)
    (Hstored : tokens s !! ApiChallengeToken.token row = Some row) :
  let result := validate_token now (ApiChallengeToken.token row) s in
  (result = Return row
   <-> ApiChallengeToken.is_revoked row = false
       /\ now <= ApiChallengeToken.expires_at row)
  /\ (result <> Return row ->
      exists msg, result = Raise (raise_ TokenExpiredError msg))
  /\ (ApiChallengeToken.is_revoked row = true ->
      exists msg, result = Raise (raise_ TokenExpiredError msg))
  /\ (now = ApiChallengeToken.expires_at row ->
      ApiChallengeToken.is_revoked row = false -> result = Return row)
  /\ (forall unknown, tokens s !! unknown = None ->
      exists msg,
        validate_token now unknown s = Raise (raise_ TokenExpiredError msg)).
Proof.
  intros result. subst result.
  rewrite (validate_token_found _ _ _ _ Hstored).
  pose proof (is_valid_iff now row) as Hiff.
  destruct (ApiChallengeToken.is_valid now row) eqn:Hv.
  - destruct Hiff as [Hiff _]. specialize (Hiff eq_refl) as [Hr He].
    split; [tauto |].
    split; [intros Hne; contradiction |].
    split; [intros Hrev; congruence |].
    split; [reflexivity |].
    intros unknown Hnone. rewrite (validate_token_unknown _ _ _ Hnone).
    eauto.
  - destruct Hiff as [_ Hiff].
    assert (Hnot : ~ (ApiChallengeToken.is_revoked row = false
                      /\ now <= ApiChallengeToken.expires_at row)).
    { intros Hboth. apply Hiff in Hboth. discriminate. }
    split; [split; [discriminate | intros Hboth; contradiction] |].
    split; [eauto |].
    split; [eauto |].
    split; [intros Hnow Hrev; exfalso; apply Hnot; split; [auto | lia] |].
    intros unknown Hnone. rewrite (validate_token_unknown _ _ _ Hnone).
    eauto.
Qed.

(** The two texts of [InvalidTimestampError] differ. *)
Lemma timestamp_messages_differ tolerance :
  "Invalid timestamp format" <> outside_tolerance_message tolerance.
Proof. unfold outside_tolerance_message. simpl. discriminate. Qed.

(** C4. [validate_timestamp] raises the malformed-timestamp error when the
    string is no integer; otherwise it raises the out-of-tolerance error
    exactly when [|now - parsed|] exceeds the tolerance (60 unless
    configured), and returns the parsed integer exactly when it does not:
    a difference equal to the tolerance is accepted, one second more is
    rejected. *)
Theorem validate_timestamp_spec (now : Z) (timestamp_str : string) :
  let tolerance := getattr (API_REQUEST_TIMESTAMP_TOLERANCE settings) 60 in
  let result := validate_timestamp settings now timestamp_str in
  let malformed := raise_ InvalidTimestampError "Invalid timestamp format" in
  let out_of_tolerance :=
    raise_ InvalidTimestampError (outside_tolerance_message tolerance) in
  (Py.int_of_str timestamp_str = None -> result = Raise malformed)
  /\ (forall parsed, Py.int_of_str timestamp_str = Some parsed ->
      let diff := Z.abs (timestamp now - parsed) in
      (tolerance < diff <-> result = Raise out_of_tolerance)
      /\ (diff <= tolerance <-> result = Return parsed)
      /\ (diff = tolerance -> result = Return parsed)
      /\ (diff = tolerance + 1 -> result = Raise out_of_tolerance))
  /\ malformed <> out_of_tolerance
  /\ (API_REQUEST_TIMESTAMP_TOLERANCE settings = None -> tolerance = 60).
Proof.
  intros tolerance result malformed out_of_tolerance.
  subst result. unfold validate_timestamp. fold tolerance.
  split; [| split; [| split]].
  - intros Hnone. rewrite Hnone. reflexivity.
  - intros parsed Hparsed. cbv zeta. rewrite Hparsed.
    set (diff := Z.abs (timestamp now - parsed)).
    destruct (tolerance <? diff) eqn:Hcmp.
    + apply Z.ltb_lt in Hcmp.
      split; [tauto |].
      split; [split; [lia | discriminate] |].
      split; [lia | reflexivity].
    + apply Z.ltb_ge in Hcmp.
      split; [split; [lia | discriminate] |].
      split; [tauto |].
      split; [reflexivity | lia].
  - unfold malformed, out_of_tolerance. intros Heq.
    exact (timestamp_messages_differ tolerance (f_equal str_of Heq)).
  - intros Hnone. unfold tolerance. rewrite Hnone. reflexivity.
Qed.

End Validators.

(** ** The signature *)

Section Signature.

Lemma nth_Forall {A : Type} (P : A -> Prop) (l : list A) (d : A) (n : nat) :
  Forall P l -> P d -> P (nth n l d).
Proof.
  intros Hl Hd. revert n.
  induction Hl as [|x l Hx Hl IH]; intros [|n]; simpl; auto.
Qed.

Lemma hex_digit_isascii d : Py.char_isascii (Sha256.hex_digit d) = true.
Proof.
  unfold Sha256.hex_digit.
  apply (nth_Forall (fun c => Py.char_isascii c = true)).
  - repeat constructor.
  - reflexivity.
Qed.

Lemma hex_isascii bs : Py.isascii (Sha256.hex bs) = true.
Proof.
  induction bs as [|b bs IH]; [reflexivity |].
  cbn [Sha256.hex Py.isascii].
  rewrite !hex_digit_isascii, IH. reflexivity.
Qed.

(** A hexadecimal digest is an ASCII string. *)
Lemma calculate_signature_isascii token secret timestamp nonce method path
    body_hash :
  Py.isascii
    (calculate_signature token secret timestamp nonce method path body_hash)
  = true.
Proof. unfold calculate_signature, Sha256.hmac_hexdigest. apply hex_isascii. Qed.

Lemma compare_digest_ascii a b :
  Py.isascii a = true -> Py.isascii b = true ->
  compare_digest a b = Return (String.eqb a b).
Proof. intros Ha Hb. unfold compare_digest. rewrite Ha, Hb. reflexivity. Qed.

Lemma compare_digest_non_ascii a b :
  Py.isascii b = false ->
  compare_digest a b
  = Raise (raise_ TypeError
             "comparing strings with non-ASCII characters is not supported").
Proof.
  intros Hb. unfold compare_digest. rewrite Hb, andb_false_r. reflexivity.
Qed.

Variables (now : Z) (s : store).
Variables (token timestamp nonce method path body_hash : string).

(** [validate_signature] by cases on the token and on the signature. *)
Lemma validate_signature_invalid_token signature e :
  validate_token now token s = Raise e ->
  validate_signature now token timestamp nonce method path body_hash
                     signature s
  = Raise (raise_ InvalidSignatureError "Invalid or expired token").
Proof.
  intros Htok. unfold validate_signature, get_token_secret.
  rewrite Htok. simpl.
  unfold isinstance. rewrite (validate_token_raises _ _ _ _ Htok).
  reflexivity.
Qed.

Lemma validate_signature_valid_token signature row :
  validate_token now token s = Return row ->
  validate_signature now token timestamp nonce method path body_hash
                     signature s
  = if Py.isascii signature then
      if String.eqb
           (calculate_signature token (ApiChallengeToken.secret row)
                                timestamp nonce method path body_hash)
           signature
      then Return true
      else Raise (raise_ InvalidSignatureError "Invalid signature")
    else Raise (raise_ TypeError
                  "comparing strings with non-ASCII characters is not supported").
Proof.
  intros Htok. unfold validate_signature, get_token_secret.
  rewrite Htok. cbn [and_then try_pure].
  destruct (Py.isascii signature) eqn:Hascii.
  - rewrite compare_digest_ascii
      by (auto using calculate_signature_isascii).
    cbn [and_then].
    destruct (String.eqb _ signature); reflexivity.
  - rewrite compare_digest_non_ascii by assumption. reflexivity.
Qed.

(** The signature is accepted exactly when it is the digest computed
    under the stored secret of a valid token. *)
Lemma validate_signature_succeeds_iff signature :
  validate_signature now token timestamp nonce method path body_hash
                     signature s = Return true
  <-> exists row,
        validate_token now token s = Return row
        /\ signature
           = calculate_signature token (ApiChallengeToken.secret row)
                                 timestamp nonce method path body_hash.
Proof.
  split.
  - destruct (validate_token now token s) as [row|e] eqn:Htok.
    + rewrite (validate_signature_valid_token _ _ Htok).
      destruct (Py.isascii signature); [| discriminate].
      destruct (String.eqb _ signature) eqn:Heq; [| discriminate].
      intros _. exists row. split; [reflexivity |].
      symmetry. apply String.eqb_eq. exact Heq.
    + rewrite (validate_signature_invalid_token _ _ Htok). discriminate.
  - intros (row & Htok & ->).
    rewrite (validate_signature_valid_token _ _ Htok).
    rewrite calculate_signature_isascii, String.eqb_refl. reflexivity.
Qed.

(** An ASCII signature that is not the expected digest is a mismatch. *)
Lemma validate_signature_mismatch signature row :
  validate_token now token s = Return row ->
  Py.isascii signature = true ->
  signature
  <> calculate_signature token (ApiChallengeToken.secret row)
                         timestamp nonce method path body_hash ->
  validate_signature now token timestamp nonce method path body_hash
                     signature s
  = Raise (raise_ InvalidSignatureError "Invalid signature").
Proof.
  intros Htok Hascii Hne.
  rewrite (validate_signature_valid_token _ _ Htok), Hascii.
  destruct (String.eqb _ signature) eqn:Heq; [| reflexivity].
  apply String.eqb_eq in Heq. congruence.
Qed.

(** A signature with a character past ASCII is not compared at all. *)
Lemma validate_signature_non_ascii signature row :
  validate_token now token s = Return row ->
  Py.isascii signature = false ->
  validate_signature now token timestamp nonce method path body_hash
                     signature s
  = Raise (raise_ TypeError
             "comparing strings with non-ASCII characters is not supported").
Proof.
  intros Htok Hascii.
  rewrite (validate_signature_valid_token _ _ Htok), Hascii. reflexivity.
Qed.

Lemma validate_signature_raises signature e :
  validate_signature now token timestamp nonce method path body_hash
                     signature s = Raise e ->
  e = raise_ InvalidSignatureError "Invalid or expired token"
  \/ e = raise_ InvalidSignatureError "Invalid signature"
  \/ class_of e = TypeError.
Proof.
  destruct (validate_token now token s) as [row|e'] eqn:Htok.
  - rewrite (validate_signature_valid_token _ _ Htok).
    destruct (Py.isascii signature).
    + destruct (String.eqb _ signature); intros H; inversion H; auto.
    + intros H; inversion H; auto.
  - rewrite (validate_signature_invalid_token _ _ Htok).
    intros H; inversion H; auto.
Qed.

End Signature.

(** ** The nonce registry *)

Section Nonce.

Variable settings : Settings.

Lemma nonce_objects_exists_true nonce s :
  nonce_objects_exists nonce s = true <-> is_Some (nonces s !! nonce).
Proof. unfold nonce_objects_exists. apply bool_decide_eq_true. Qed.

Lemma nonce_objects_exists_false nonce s :
  nonce_objects_exists nonce s = false <-> nonces s !! nonce = None.
Proof.
  unfold nonce_objects_exists. rewrite bool_decide_eq_false.
  rewrite <- eq_None_not_Some. tauto.
Qed.

Lemma truthy_obj_true o : Py.truthy_obj o = true <-> o = Some true.
Proof.
  destruct o as [[|]|]; simpl; split; intros H; try discriminate;
    try reflexivity; inversion H.
Qed.

Lemma check_nonce_registered now token_obj nonce s :
  registered now nonce s ->
  check_nonce settings now token_obj nonce s = (Raise nonce_reused, s).
Proof.
  intros Hreg. unfold check_nonce, bind, reads, throw.
  destruct (Py.truthy_obj (cache_get now (nonce_cache_key nonce) s)) eqn:Hhit;
    [reflexivity |].
  destruct (nonce_objects_exists nonce s) eqn:Hfound; [reflexivity |].
  exfalso. destruct Hreg as [Hrow | Hflag].
  - apply nonce_objects_exists_true in Hrow. congruence.
  - apply truthy_obj_true in Hflag. congruence.
Qed.

Lemma check_nonce_unregistered now token_obj nonce s :
  ~ registered now nonce s ->
  check_nonce settings now token_obj nonce s
  = (Return (nonce_row settings now token_obj nonce),
     store_with_nonce settings now token_obj nonce s).
Proof.
  intros Hreg. unfold check_nonce, bind, reads, throw.
  destruct (Py.truthy_obj (cache_get now (nonce_cache_key nonce) s)) eqn:Hhit.
  { exfalso. apply Hreg. right. apply truthy_obj_true. exact Hhit. }
  destruct (nonce_objects_exists nonce s) eqn:Hfound.
  { exfalso. apply Hreg. left. apply nonce_objects_exists_true. exact Hfound. }
  apply nonce_objects_exists_false in Hfound.
  unfold nonce_objects_create. rewrite Hfound. reflexivity.
Qed.

Lemma registered_dec now nonce s :
  registered now nonce s \/ ~ registered now nonce s.
Proof.
  unfold registered.
  destruct (nonces s !! nonce) as [row|] eqn:Hrow.
  - left. left. eauto.
  - destruct (cache_get now (nonce_cache_key nonce) s) as [[|]|] eqn:Hflag.
    + left. right. reflexivity.
    + right. intros [[x Hx] | Hf]; discriminate.
    + right. intros [[x Hx] | Hf]; discriminate.
Qed.

(** A call on its own either refuses a registered nonce and leaves the
    store as it was, or inserts the row of an unregistered one. *)
Lemma check_nonce_cases now token_obj nonce s :
  (registered now nonce s
   /\ check_nonce settings now token_obj nonce s = (Raise nonce_reused, s))
  \/ (~ registered now nonce s
      /\ check_nonce settings now token_obj nonce s
         = (Return (nonce_row settings now token_obj nonce),
            store_with_nonce settings now token_obj nonce s)).
Proof.
  destruct (registered_dec now nonce s) as [Hreg | Hreg].
  - left. split; [exact Hreg |]. apply check_nonce_registered. exact Hreg.
  - right. split; [exact Hreg |]. apply check_nonce_unregistered. exact Hreg.
Qed.

Lemma store_with_nonce_tokens now token_obj nonce s :
  tokens (store_with_nonce settings now token_obj nonce s) = tokens s.
Proof. reflexivity. Qed.

Lemma store_with_nonce_row now token_obj nonce s :
  nonces (store_with_nonce settings now token_obj nonce s) !! nonce
  = Some (nonce_row settings now token_obj nonce).
Proof.
  unfold store_with_nonce, cache_set, set_cache, set_nonces. simpl.
  apply lookup_insert_eq.
Qed.

(** Once inserted, the row keeps the nonce registered at every instant. *)
Lemma store_with_nonce_registered now now' token_obj nonce s :
  registered now' nonce (store_with_nonce settings now token_obj nonce s).
Proof. left. rewrite store_with_nonce_row. eauto. Qed.

Lemma validate_token_store_with_nonce now now' token_obj nonce s token_string :
  validate_token now' token_string (store_with_nonce settings now token_obj nonce s)
  = validate_token now' token_string s.
Proof. reflexivity. Qed.

(** With no access of another request in between, the interleaved call is
    the call itself. *)
Lemma check_nonce_interleaved_alone now token_obj nonce s :
  check_nonce_interleaved settings (fun s => s) now token_obj nonce s
  = check_nonce settings now token_obj nonce s.
Proof.
  unfold check_nonce_interleaved, check_nonce, bind, reads, writes, throw.
  destruct (Py.truthy_obj _); [reflexivity |].
  destruct (nonce_objects_exists nonce s); reflexivity.
Qed.

(** When the row appears between the look-up and the insert, the insert
    fails on the unique column and the call raises [IntegrityError]. *)
Lemma check_nonce_interleaved_conflict others now token_obj nonce s :
  ~ registered now nonce s ->
  is_Some (nonces (others s) !! nonce) ->
  check_nonce_interleaved settings others now token_obj nonce s
  = (Raise integrity_error, others s).
Proof.
  intros Hreg [row Hrow].
  unfold check_nonce_interleaved, bind, reads, writes, throw.
  destruct (Py.truthy_obj (cache_get now (nonce_cache_key nonce) s)) eqn:Hhit.
  { exfalso. apply Hreg. right. apply truthy_obj_true. exact Hhit. }
  destruct (nonce_objects_exists nonce s) eqn:Hfound.
  { exfalso. apply Hreg. left. apply nonce_objects_exists_true. exact Hfound. }
  unfold nonce_objects_create. rewrite Hrow. reflexivity.
Qed.

End Nonce.

(** ** The gate *)

Section Gate.

Variable settings : Settings.
Variable urlparse : urlparser.

Lemma gated_true_iff request :
  gated request = true
  <-> _should_skip_validation (path request) = false
      /\ String.eqb (method request) "OPTIONS" = false
      /\ Py.startswith (path request) "/api/" = true
      /\ Py.contains "/webhook/" (path request) = false.
Proof.
  unfold gated. rewrite !andb_true_iff, !negb_true_iff. tauto.
Qed.

(** A request outside the gate goes through, whatever the store holds. *)
Lemma process_request_skipped (check : Z -> ApiChallengeToken.t -> string -> M ApiNonce.t) now request s :
  gated request = false ->
  process_request_with settings urlparse check now request s
  = (Return None, s).
Proof.
  unfold gated, process_request_with. intros Hskip.
  destruct (_should_skip_validation (path request)); [reflexivity |].
  destruct (String.eqb (method request) "OPTIONS"); [reflexivity |].
  destruct (Py.startswith (path request) "/api/"); [| reflexivity].
  destruct (Py.contains "/webhook/" (path request)); [reflexivity |].
  discriminate.
Qed.

(** A gated request is answered by the [try] and its two last clauses. *)
Lemma process_request_gated (check : Z -> ApiChallengeToken.t -> string -> M ApiNonce.t) now request s :
  gated request = true ->
  process_request_with settings urlparse check now request s
  = match validate_request_with settings urlparse check now request s with
    | (Return r, s') => (Return r, s')
    | (Raise e, s') => (Return (Some (rejected settings e)), s')
    end.
Proof.
  intros Hgated. apply gated_true_iff in Hgated as (H1 & H2 & H3 & H4).
  unfold process_request_with. rewrite H1, H2, H3, H4. simpl.
  unfold handle, try_except, ret.
  destruct (validate_request_with _ _ _ _ _ _) as [[r|e] s']; reflexivity.
Qed.

Lemma headers_present_eq request :
  forallb Py.truthy_opt
    [ META request !! "HTTP_X_API_CHALLENGE_TOKEN";
      META request !! "HTTP_X_API_TIMESTAMP";
      META request !! "HTTP_X_API_NONCE";
      META request !! "HTTP_X_API_SIGNATURE" ]
  = headers_present request.
Proof. reflexivity. Qed.

(** The [try] of the gate, stage by stage. *)
Lemma validate_request_stages (check : Z -> ApiChallengeToken.t -> string -> M ApiNonce.t) now request s :
  validate_request_with settings urlparse check now request s
  = match validate_origin settings urlparse request with
    | Raise e => (Raise e, s)
    | Return _ =>
    if negb (headers_present request)
    then (Return (Some (error_response "Missing required security headers"
                                       401)), s)
    else
    let token := header request "HTTP_X_API_CHALLENGE_TOKEN" in
    let timestamp := header request "HTTP_X_API_TIMESTAMP" in
    let nonce := header request "HTTP_X_API_NONCE" in
    let signature := header request "HTTP_X_API_SIGNATURE" in
    match validate_token now token s with
    | Raise e =>
        if isinstance e TokenExpiredError
        then (Return (Some (error_response "Invalid or expired token" 401)), s)
        else (Raise e, s)
    | Return token_obj =>
    match validate_timestamp settings now timestamp with
    | Raise e =>
        if isinstance e InvalidTimestampError
        then (Return (Some (error_response (str_of e) 401)), s)
        else (Raise e, s)
    | Return _ =>
    match check now token_obj nonce s with
    | (Raise e, s') =>
        if isinstance e NonceReusedError
        then (Return (Some (error_response "Nonce has already been used"
                                           401)), s')
        else (Raise e, s')
    | (Return _, s') =>
    match validate_signature now token timestamp nonce (method request)
            (path request) (hash_body (body request)) signature s' with
    | Raise e =>
        if isinstance e InvalidSignatureError
        then (Return (Some (error_response "Invalid signature" 401)), s')
        else (Raise e, s')
    | Return _ => (Return None, s')
    end end end end end.
Proof.
  unfold validate_request_with, bind, reads.
  destruct (validate_origin settings urlparse request) as [ok|e];
    [| reflexivity].
  rewrite headers_present_eq.
  destruct (negb (headers_present request)); [reflexivity |].
  fold (header request "HTTP_X_API_CHALLENGE_TOKEN").
  fold (header request "HTTP_X_API_TIMESTAMP").
  fold (header request "HTTP_X_API_NONCE").
  fold (header request "HTTP_X_API_SIGNATURE").
  cbv zeta. unfold try_except, ret, reads.
  destruct (validate_token now _ s) as [token_obj|e]; [| reflexivity].
  destruct (validate_timestamp settings now _) as [t|e]; [| reflexivity].
  destruct (check now token_obj _ s) as [[row|e] s']; [| reflexivity].
  destruct (validate_signature _ _ _ _ _ _ _ _ s') as [b|e]; reflexivity.
Qed.

(** What each validator can raise. *)
Lemma validate_timestamp_raises now timestamp_str e :
  validate_timestamp settings now timestamp_str = Raise e ->
  e = raise_ InvalidTimestampError "Invalid timestamp format"
  \/ e = raise_ InvalidTimestampError
           (outside_tolerance_message
              (getattr (API_REQUEST_TIMESTAMP_TOLERANCE settings) 60)).
Proof.
  unfold validate_timestamp.
  destruct (Py.int_of_str timestamp_str) as [t|].
  - destruct (_ <? _); intros H; inversion H. right. reflexivity.
  - intros H; inversion H. left. reflexivity.
Qed.

Lemma validate_origin_raises request e :
  validate_origin settings urlparse request = Raise e ->
  class_of e = ValueError
  \/ e = raise_ SecurityError "FRONTEND_URL not configured"
  \/ exists origin, e = raise_ SecurityError ("Invalid origin: " +:+ origin).
Proof.
  unfold validate_origin.
  set (origin := Py.or_else _ _).
  destruct (Py.startswith origin "http").
  - unfold parse_url. destruct (urlparse origin) as [parsed|].
    + cbn [and_then].
      destruct (negb (Py.truthy _)).
      * destruct (getattr (DEBUG settings) false); intros H; inversion H.
        auto.
      * destruct (negb (String.eqb _ _)); [| discriminate].
        destruct (_ && _); intros H; inversion H. eauto.
    + cbn [and_then]. intros H; inversion H. auto.
  - cbn [and_then].
    destruct (negb (Py.truthy _)).
    + destruct (getattr (DEBUG settings) false); intros H; inversion H.
      auto.
    + destruct (negb (String.eqb _ _)); [| discriminate].
      destruct (_ && _); intros H; inversion H. eauto.
Qed.

Lemma check_nonce_raises now token_obj nonce s e s' :
  check_nonce settings now token_obj nonce s = (Raise e, s') ->
  e = nonce_reused /\ s' = s /\ registered now nonce s.
Proof.
  destruct (check_nonce_cases settings now token_obj nonce s)
    as [[Hreg ->] | [Hreg ->]]; intros H; inversion H; subst; auto.
Qed.

Lemma check_nonce_returns now token_obj nonce s row s' :
  check_nonce settings now token_obj nonce s = (Return row, s') ->
  row = nonce_row settings now token_obj nonce
  /\ s' = store_with_nonce settings now token_obj nonce s
  /\ ~ registered now nonce s.
Proof.
  destruct (check_nonce_cases settings now token_obj nonce s)
    as [[Hreg ->] | [Hreg ->]]; intros H; inversion H; subst; auto.
Qed.

End Gate.

(** ** The answers of the gate *)

Section Answers.

Variable settings : Settings.
Variable urlparse : urlparser.

Lemma str_in_In x l : Py.str_in x l = true <-> In x l.
Proof.
  unfold Py.str_in. rewrite existsb_exists. split.
  - intros (y & Hy & Heq). apply String.eqb_eq in Heq. subst. exact Hy.
  - intros Hx. exists x. split; [exact Hx | apply String.eqb_refl].
Qed.

(** C10. A request whose path does not start with [/api/], or holds
    [/webhook/], or whose method is [OPTIONS], or whose path is an excluded
    path or starts with an excluded prefix, passes the gate: the answer is
    [None] for every content of the store, and the store is left as it
    was. *)
Theorem exempt_request_passes (now : Z) (request : HttpRequest) (s : store) :
  Py.startswith (path request) "/api/" = false
  \/ Py.contains "/webhook/" (path request) = true
  \/ method request = "OPTIONS"
  \/ In (path request) EXCLUDED_PATHS
  \/ (exists prefix, In prefix EXCLUDED_PREFIXES
                     /\ Py.startswith (path request) prefix = true) ->
  process_request settings urlparse now request s = (Return None, s).
Proof.
  intros Hexempt. apply process_request_skipped.
  unfold gated, _should_skip_validation.
  destruct Hexempt as [H | [H | [H | [H | (prefix & Hin & H)]]]].
  - rewrite H. apply andb_false_iff. left. apply andb_false_r.
  - rewrite H. apply andb_false_r.
  - rewrite H. simpl. rewrite andb_false_r. reflexivity.
  - apply str_in_In in H. rewrite H. reflexivity.
  - assert (Hex : existsb (Py.startswith (path request)) EXCLUDED_PREFIXES
                  = true).
    { apply existsb_exists. exists prefix. split; assumption. }
    rewrite Hex. destruct (Py.str_in _ _); reflexivity.
Qed.

(** The gate answers a gated request by the answer to its first failure,
    and lets it through when no check fails. *)
Lemma process_request_first_failure now request s :
  gated request = true ->
  fst (process_request settings urlparse now request s)
  = Return (response_for settings
              <$> first_failure settings urlparse now request s).
Proof.
  intros Hgated. unfold process_request.
  rewrite (process_request_gated _ _ _ _ _ _ Hgated).
  rewrite validate_request_stages. unfold first_failure.
  destruct (validate_origin settings urlparse request) as [ok|e] eqn:Horigin.
  2:{ simpl. unfold rejected.
      destruct (validate_origin_raises _ _ _ _ Horigin)
        as [Hc | [-> | [o ->]]]; [| reflexivity | reflexivity].
      unfold isinstance. rewrite Hc. reflexivity. }
  destruct (negb (headers_present request)); [reflexivity |].
  cbv zeta.
  destruct (validate_token now _ s) as [token_obj|e] eqn:Htoken.
  2:{ pose proof (validate_token_raises _ _ _ _ Htoken) as Hc.
      unfold isinstance. simpl. rewrite Hc. reflexivity. }
  destruct (validate_timestamp settings now _) as [t|e] eqn:Htime.
  2:{ destruct (validate_timestamp_raises _ _ _ _ Htime) as [-> | ->];
        reflexivity. }
  destruct (check_nonce settings now token_obj _ s) as [[row|e] s'] eqn:Hnonce.
  2:{ apply check_nonce_raises in Hnonce as (-> & -> & _). reflexivity. }
  destruct (validate_signature _ _ _ _ _ _ _ _ s') as [b|e] eqn:Hsig;
    [reflexivity |].
  destruct (validate_signature_raises _ _ _ _ _ _ _ _ _ _ Hsig)
    as [-> | [-> | Hc]]; [reflexivity | reflexivity |].
  unfold isinstance, rejected, isinstance. simpl. rewrite Hc. reflexivity.
Qed.

Lemma response_for_authentication_failure f :
  authentication_failure f = true ->
  exists message, response_for settings f = error_response message 401.
Proof.
  destruct f as [|[c msg]]; simpl.
  - eauto.
  - unfold rejected, isinstance. simpl.
    destruct c; simpl; intros H; try discriminate; eauto.
Qed.

Lemma response_for_status f :
  status (response_for settings f) = 401
  \/ status (response_for settings f) = 500.
Proof.
  destruct f as [|[c msg]]; simpl; [auto |].
  unfold rejected, isinstance. simpl.
  destruct c; simpl; auto; destruct (getattr (DEBUG settings) false); auto.
Qed.

Lemma response_for_500 f :
  status (response_for settings f) = 500 ->
  exists e, f = Raised e /\ isinstance e SecurityError = false.
Proof.
  destruct f as [|[c msg]]; simpl; [discriminate |].
  unfold rejected, isinstance. simpl.
  destruct c; simpl; intros H; try discriminate; eauto.
Qed.

(** C7, as the code has it. A gated request whose first failure is of the
    authentication category (a missing header, or an exception of the
    [SecurityError] family raised by a validator) is answered with status
    401 and a body [{"error": message}], the message being the one of the
    check that failed; every answer has status 401 or 500, and 500 is the
    answer to an exception outside that family only. *)
Theorem authentication_failure_is_401 (now : Z) (request : HttpRequest)
    (s : store) (Hgated : gated request = true) :
  let answer := fst (process_request settings urlparse now request s) in
  (forall f, first_failure settings urlparse now request s = Some f ->
     authentication_failure f = true ->
     exists message,
       answer = Return (Some (error_response message 401))
       /\ error_response message 401 = response_for settings f)
  /\ (forall response, answer = Return (Some response) ->
        (status response = 401 \/ status response = 500)
        /\ exists message, data response = [("error", message)])
  /\ (forall response, answer = Return (Some response) ->
        status response = 500 ->
        exists e, first_failure settings urlparse now request s
                  = Some (Raised e)
                  /\ isinstance e SecurityError = false).
Proof.
  intros answer. subst answer.
  rewrite (process_request_first_failure _ _ _ Hgated).
  split; [| split].
  - intros f Hf Hauth. rewrite Hf. simpl.
    destruct (response_for_authentication_failure f Hauth) as [message Hm].
    exists message. rewrite Hm. split; reflexivity.
  - intros response Hresp.
    destruct (first_failure _ _ _ _ _) as [f|]; [| discriminate].
    simpl in Hresp. inversion Hresp; subst. split.
    + apply response_for_status.
    + destruct f as [|[c msg]]; simpl; [eauto |].
      unfold rejected, isinstance. simpl.
      destruct c; simpl; eauto;
        destruct (getattr (DEBUG settings) false); eauto.
  - intros response Hresp H500.
    destruct (first_failure _ _ _ _ _) as [f|]; [| discriminate].
    simpl in Hresp. inversion Hresp; subst.
    destruct (response_for_500 f H500) as (e & -> & He). eauto.
Qed.

End Answers.

(** ** Headers, replays and consumed nonces *)

Section Replay.

Variable settings : Settings.
Variable urlparse : urlparser.

Lemma required_header_cases name :
  In name required_headers ->
  name = "HTTP_X_API_CHALLENGE_TOKEN" \/ name = "HTTP_X_API_TIMESTAMP"
  \/ name = "HTTP_X_API_NONCE" \/ name = "HTTP_X_API_SIGNATURE".
Proof. simpl. intuition auto. Qed.

Lemma headers_present_false request name :
  In name required_headers ->
  Py.truthy_opt (META request !! name) = false ->
  headers_present request = false.
Proof.
  intros Hin Hfalsy. unfold headers_present.
  apply not_true_is_false. intros Hall.
  rewrite forallb_forall in Hall. specialize (Hall name Hin). congruence.
Qed.

Lemma validate_origin_without_header request name :
  In name required_headers ->
  validate_origin settings urlparse (without_header name request)
  = validate_origin settings urlparse request.
Proof.
  intros Hin. unfold validate_origin, without_header. simpl.
  assert (Ho : delete name (META request) !! "HTTP_ORIGIN"
               = META request !! "HTTP_ORIGIN").
  { apply lookup_delete_ne.
    destruct (required_header_cases _ Hin) as [-> | [-> | [-> | ->]]];
      discriminate. }
  assert (Hr : delete name (META request) !! "HTTP_REFERER"
               = META request !! "HTTP_REFERER").
  { apply lookup_delete_ne.
    destruct (required_header_cases _ Hin) as [-> | [-> | [-> | ->]]];
      discriminate. }
  rewrite Ho, Hr. reflexivity.
Qed.

(** The answer to a request that lacks a header, or holds an empty one. *)
Lemma process_request_header_missing now request s :
  gated request = true ->
  headers_present request = false ->
  process_request settings urlparse now request s
  = match validate_origin settings urlparse request with
    | Raise e => (Return (Some (rejected settings e)), s)
    | Return _ =>
        (Return (Some (error_response "Missing required security headers"
                                      401)), s)
    end.
Proof.
  intros Hgated Hmissing. unfold process_request.
  rewrite (process_request_gated _ _ _ _ _ _ Hgated).
  rewrite validate_request_stages, Hmissing.
  destruct (validate_origin settings urlparse request); reflexivity.
Qed.

(** C8. A gated request in which one of the four required headers is
    present with the empty string is answered as the same request without
    that header: by the 401 answer for missing headers once the origin is
    accepted, with no access to the tokens, the nonces or the cache (the
    answer is the same for every store, and the store is left as it was). *)
Theorem empty_header_is_missing (now : Z) (request : HttpRequest) (s : store)
    (name : string)
    (Hgated : gated request = true)
    (Hname : In name required_headers)
    (Hempty : META request !! name = Some "") :
  process_request settings urlparse now request s
  = process_request settings urlparse now (without_header name request) s
  /\ snd (process_request settings urlparse now request s) = s
  /\ (forall s2, fst (process_request settings urlparse now request s2)
                 = fst (process_request settings urlparse now request s))
  /\ (forall ok, validate_origin settings urlparse request = Return ok ->
        process_request settings urlparse now request s
        = (Return (Some (error_response "Missing required security headers"
                                        401)), s))
  /\ exists response,
       fst (process_request settings urlparse now request s)
       = Return (Some response).
Proof.
  assert (Hmissing : headers_present request = false).
  { apply (headers_present_false request name Hname).
    rewrite Hempty. reflexivity. }
  assert (Hmissing' : headers_present (without_header name request) = false).
  { apply (headers_present_false _ name Hname).
    unfold without_header. simpl. rewrite lookup_delete_eq. reflexivity. }
  assert (Hgated' : gated (without_header name request) = true)
    by exact Hgated.
  rewrite (process_request_header_missing _ _ _ Hgated' Hmissing').
  rewrite (validate_origin_without_header _ _ Hname).
  split; [| split; [| split; [| split]]].
  - apply process_request_header_missing; assumption.
  - rewrite (process_request_header_missing _ _ _ Hgated Hmissing).
    destruct (validate_origin settings urlparse request); reflexivity.
  - intros s2.
    rewrite !(process_request_header_missing _ _ _ Hgated Hmissing).
    destruct (validate_origin settings urlparse request); reflexivity.
  - intros ok Hok.
    rewrite (process_request_header_missing _ _ _ Hgated Hmissing), Hok.
    reflexivity.
  - rewrite (process_request_header_missing _ _ _ Hgated Hmissing).
    destruct (validate_origin settings urlparse request); simpl; eauto.
Qed.

(** A request that reaches the nonce check with a registered nonce is
    answered that the nonce was used, whatever its signature. *)
Lemma registered_nonce_rejected now request s ok token_obj t :
  gated request = true ->
  validate_origin settings urlparse request = Return ok ->
  headers_present request = true ->
  validate_token now (header request "HTTP_X_API_CHALLENGE_TOKEN") s
  = Return token_obj ->
  validate_timestamp settings now (header request "HTTP_X_API_TIMESTAMP")
  = Return t ->
  registered now (header request "HTTP_X_API_NONCE") s ->
  process_request settings urlparse now request s
  = (Return (Some (error_response "Nonce has already been used" 401)), s).
Proof.
  intros Hgated Horigin Hheaders Htoken Htime Hreg. unfold process_request.
  rewrite (process_request_gated _ _ _ _ _ _ Hgated).
  rewrite validate_request_stages, Horigin, Hheaders. cbv zeta. simpl negb.
  cbv iota. rewrite Htoken, Htime.
  rewrite (check_nonce_registered _ _ _ _ _ Hreg). reflexivity.
Qed.

(** C2. When the nonce is registered (its row is in the table, or its flag
    is live in the cache), [check_nonce] raises [NonceReusedError] and
    leaves the store as it was, so no row is created; and a request that
    presents the nonce and reaches the nonce check, such as the replay of
    an accepted request, is answered that the nonce was used. *)
Theorem registered_nonce_is_refused (now : Z) (nonce : string) (s : store)
    (Hregistered : registered now nonce s) :
  (forall token_obj,
     check_nonce settings now token_obj nonce s = (Raise nonce_reused, s))
  /\ class_of nonce_reused = NonceReusedError
  /\ (forall request ok token_obj t,
        gated request = true ->
        header request "HTTP_X_API_NONCE" = nonce ->
        validate_origin settings urlparse request = Return ok ->
        headers_present request = true ->
        validate_token now (header request "HTTP_X_API_CHALLENGE_TOKEN") s
        = Return token_obj ->
        validate_timestamp settings now
          (header request "HTTP_X_API_TIMESTAMP") = Return t ->
        process_request settings urlparse now request s
        = (Return (Some (error_response "Nonce has already been used" 401)),
           s)).
Proof.
  split; [| split].
  - intros token_obj. apply check_nonce_registered. exact Hregistered.
  - reflexivity.
  - intros request ok token_obj t Hgated Hnonce Horigin Hheaders Htoken Htime.
    apply (registered_nonce_rejected now request s ok token_obj t); auto.
    rewrite Hnonce. exact Hregistered.
Qed.


End Replay.

Section ConsumedNonce.

Variable settings : Settings.
Variable urlparse : urlparser.

Lemma rejected_origin_not_signature request e :
  validate_origin settings urlparse request = Raise e ->
  rejected settings e <> (error_response "Invalid signature" 401).
Proof.
  intros Horigin.
  destruct (validate_origin_raises _ _ _ _ Horigin) as [Hc | [-> | [o ->]]].
  - unfold rejected, isinstance. rewrite Hc. simpl.
    destruct (getattr (DEBUG settings) false); discriminate.
  - discriminate.
  - discriminate.
Qed.

(** The answer [Invalid signature] is given after the nonce was inserted. *)
Lemma invalid_signature_answer_inv now request s s1 :
  gated request = true ->
  process_request settings urlparse now request s
  = (Return (Some (error_response "Invalid signature" 401)), s1) ->
  exists ok token_obj t e,
    validate_origin settings urlparse request = Return ok
    /\ headers_present request = true
    /\ validate_token now (header request "HTTP_X_API_CHALLENGE_TOKEN") s
       = Return token_obj
    /\ validate_timestamp settings now (header request "HTTP_X_API_TIMESTAMP")
       = Return t
    /\ ~ registered now (header request "HTTP_X_API_NONCE") s
    /\ s1 = store_with_nonce settings now token_obj
              (header request "HTTP_X_API_NONCE") s
    /\ validate_signature now (header request "HTTP_X_API_CHALLENGE_TOKEN")
         (header request "HTTP_X_API_TIMESTAMP")
         (header request "HTTP_X_API_NONCE") (method request) (path request)
         (hash_body (body request)) (header request "HTTP_X_API_SIGNATURE") s1
       = Raise e
    /\ class_of e = InvalidSignatureError.
Proof.
  intros Hgated. unfold process_request.
  rewrite (process_request_gated _ _ _ _ _ _ Hgated).
  rewrite validate_request_stages.
  destruct (validate_origin settings urlparse request) as [ok|e] eqn:Horigin.
  2:{ intros H. inversion H as [[Hresp Hs]].
      exfalso. exact (rejected_origin_not_signature _ _ Horigin Hresp). }
  destruct (headers_present request) eqn:Hheaders; simpl negb; cbv iota.
  2:{ intros H. inversion H. }
  cbv zeta.
  destruct (validate_token now _ s) as [token_obj|e] eqn:Htoken.
  2:{ pose proof (validate_token_raises _ _ _ _ Htoken) as Hc.
      unfold isinstance. rewrite Hc. simpl. intros H. inversion H. }
  destruct (validate_timestamp settings now _) as [t|e] eqn:Htime.
  2:{ destruct (validate_timestamp_raises _ _ _ _ Htime) as [-> | ->];
        simpl; intros H; inversion H. }
  destruct (check_nonce settings now token_obj _ s) as [[row|e] s'] eqn:Hnonce.
  2:{ apply check_nonce_raises in Hnonce as (-> & -> & _).
      simpl. intros H. inversion H. }
  apply check_nonce_returns in Hnonce as (_ & -> & Hfresh).
  destruct (validate_signature _ _ _ _ _ _ _ _ _) as [b|e] eqn:Hsig.
  { intros H. inversion H. }
  destruct (validate_signature_raises _ _ _ _ _ _ _ _ _ _ Hsig)
    as [-> | [-> | Hc]].
  - simpl. intros H. inversion H; subst.
    exists ok, token_obj, t,
      (raise_ InvalidSignatureError "Invalid or expired token").
    repeat split; auto.
  - simpl. intros H. inversion H; subst.
    exists ok, token_obj, t, (raise_ InvalidSignatureError "Invalid signature").
    repeat split; auto.
  - destruct e as [c msg]. simpl in Hc. subst c.
    unfold isinstance, rejected, isinstance. simpl.
    destruct (getattr (DEBUG settings) false); intros H; inversion H.
Qed.

(** C9. A gated request answered [Invalid signature] has had its nonce
    inserted before the signature was checked: the row is in the table
    afterwards, though it was not before, and a later request with that
    nonce that reaches the nonce check is answered that the nonce was
    used, whatever its signature, the correct one included. *)
Theorem rejected_signature_consumes_nonce (now : Z) (request : HttpRequest)
    (s s1 : store)
    (Hgated : gated request = true)
    (Hrejected : process_request settings urlparse now request s
                 = (Return (Some (error_response "Invalid signature" 401)),
                    s1)) :
  let nonce := header request "HTTP_X_API_NONCE" in
  nonces s !! nonce = None
  /\ is_Some (nonces s1 !! nonce)
  /\ cache_get now (nonce_cache_key nonce) s1 = Some true
  /\ forall later request2 ok token_obj t,
       gated request2 = true ->
       header request2 "HTTP_X_API_NONCE" = nonce ->
       validate_origin settings urlparse request2 = Return ok ->
       headers_present request2 = true ->
       validate_token later (header request2 "HTTP_X_API_CHALLENGE_TOKEN") s1
       = Return token_obj ->
       validate_timestamp settings later
         (header request2 "HTTP_X_API_TIMESTAMP") = Return t ->
       process_request settings urlparse later request2 s1
       = (Return (Some (error_response "Nonce has already been used" 401)),
          s1).
Proof.
  intros nonce.
  destruct (invalid_signature_answer_inv _ _ _ _ Hgated Hrejected)
    as (ok & token_obj & t & e & Horigin & Hheaders & Htoken & Htime
        & Hfresh & -> & Hsig & Hclass).
  fold nonce in Hfresh |- *.
  split; [| split; [| split]].
  - destruct (nonces s !! nonce) eqn:Hrow; [| reflexivity].
    exfalso. apply Hfresh. left. rewrite Hrow. eauto.
  - rewrite store_with_nonce_row. eauto.
  - unfold cache_get, store_with_nonce, cache_set, set_cache. simpl.
    rewrite lookup_insert_eq. simpl.
    assert (Hpos : 0 < timedelta (nonce_expiry_seconds settings)).
    { unfold timedelta, nonce_expiry_seconds. lia. }
    destruct (now + timedelta (nonce_expiry_seconds settings) <=? now) eqn:Hle;
      [apply Z.leb_le in Hle; lia | reflexivity].
  - intros later request2 ok2 token_obj2 t2 Hgated2 Hnonce2 Horigin2 Hheaders2
           Htoken2 Htime2.
    apply (registered_nonce_rejected settings urlparse later request2 _
             ok2 token_obj2 t2); auto.
    rewrite Hnonce2. apply store_with_nonce_registered.
Qed.

End ConsumedNonce.

(** ** Concurrent calls with one nonce *)

Section Concurrent.

Variable settings : Settings.
Variable n : string.

Lemma step_nonce c s : call_nonce (fst (step settings c s)) = call_nonce c.
Proof.
  unfold step.
  destruct (call_at c); simpl;
    repeat match goal with
           | |- context [if ?b then _ else _] => destruct b
           | |- context [nonce_objects_create ?a ?b ?c ?d ?e] =>
               destruct (nonce_objects_create a b c d e) as [[?|?] ?]
           end; reflexivity.
Qed.

(** The table never loses a row. *)
Lemma step_keeps_rows c s k :
  is_Some (nonces s !! k) -> is_Some (nonces (snd (step settings c s)) !! k).
Proof.
  intros Hrow. unfold step.
  destruct (call_at c); simpl; auto.
  - destruct (Py.truthy_obj _); exact Hrow.
  - destruct (nonce_objects_exists _ _); exact Hrow.
  - unfold nonce_objects_create.
    destruct (nonces s !! call_nonce c) eqn:Hc; simpl; [exact Hrow |].
    destruct (decide (call_nonce c = k)) as [-> | Hne].
    + rewrite lookup_insert_eq. eauto.
    + rewrite lookup_insert_ne by exact Hne. exact Hrow.
Qed.

(** A call becomes accepted only by an insert into a table that lacked its
    nonce, and the row is there afterwards. *)
Lemma step_newly_accepted c s :
  accepted c = false ->
  accepted (fst (step settings c s)) = true ->
  nonces s !! call_nonce c = None
  /\ is_Some (nonces (snd (step settings c s)) !! call_nonce c).
Proof.
  unfold step, accepted.
  destruct (call_at c) as [| | |row|[row|e]] eqn:Hat; simpl;
    try discriminate.
  - destruct (Py.truthy_obj _); simpl; discriminate.
  - destruct (nonce_objects_exists _ _); simpl; discriminate.
  - unfold nonce_objects_create.
    destruct (nonces s !! call_nonce c) eqn:Hc; simpl; [discriminate |].
    intros _ _. split; [reflexivity |]. rewrite lookup_insert_eq. eauto.
  - rewrite Hat. discriminate.
Qed.

Lemma step_stays_accepted c s :
  accepted c = true -> accepted (fst (step settings c s)) = true.
Proof.
  unfold step, accepted.
  destruct (call_at c) as [| | |row|[row|e]] eqn:Hat; simpl;
    try discriminate; try reflexivity.
  rewrite Hat. reflexivity.
Qed.

Lemma step_failure c s e :
  call_at (fst (step settings c s)) = Finished (Raise e) ->
  call_at c = Finished (Raise e) \/ e = nonce_reused \/ e = integrity_error.
Proof.
  unfold step.
  destruct (call_at c) as [| | |row|[row|e']] eqn:Hat; simpl.
  - destruct (Py.truthy_obj _); simpl; intros H; inversion H; auto.
  - destruct (nonce_objects_exists _ _); simpl; intros H; inversion H; auto.
  - unfold nonce_objects_create.
    destruct (nonces s !! call_nonce c); simpl; intros H; inversion H; auto.
  - discriminate.
  - rewrite Hat. discriminate.
  - rewrite Hat. auto.
Qed.

(** One access of a waiting call when the nonce is nowhere. *)
Lemma step_waiting c s :
  waiting c = true ->
  nonces s !! call_nonce c = None ->
  cache s !! nonce_cache_key (call_nonce c) = None ->
  (waiting (fst (step settings c s)) = true /\ snd (step settings c s) = s)
  \/ accepted (fst (step settings c s)) = true.
Proof.
  intros Hwait Hrow Hflag. unfold step, waiting in *.
  destruct (call_at c) as [| | |row|r] eqn:Hat; try discriminate.
  - unfold cache_get. rewrite Hflag. simpl. left. auto.
  - unfold nonce_objects_exists.
    rewrite bool_decide_eq_false_2
      by (rewrite Hrow; intros [x Hx]; discriminate).
    simpl. left. auto.
  - unfold nonce_objects_create. rewrite Hrow. simpl. right. reflexivity.
Qed.

Lemma schedule_one_absent w i :
  fst w !! i = None -> schedule_one settings w i = w.
Proof. intros Hnone. unfold schedule_one. rewrite Hnone. reflexivity. Qed.

Lemma schedule_one_present w i c :
  fst w !! i = Some c ->
  schedule_one settings w i
  = (<[i := fst (step settings c (snd w))]> (fst w),
     snd (step settings c (snd w))).
Proof.
  intros Hc. unfold schedule_one. rewrite Hc.
  destruct (step settings c (snd w)); reflexivity.
Qed.

Lemma schedule_one_lookup w i c j cj :
  fst w !! i = Some c ->
  fst (schedule_one settings w i) !! j = Some cj ->
  (j = i /\ cj = fst (step settings c (snd w)))
  \/ (j <> i /\ fst w !! j = Some cj).
Proof.
  intros Hc. rewrite (schedule_one_present _ _ _ Hc). simpl.
  intros Hj. apply list_lookup_insert_Some in Hj.
  destruct Hj as [(-> & -> & _) | (Hne & Hj)]; auto.
Qed.

Lemma single_insert_step w i :
  single_insert n w -> single_insert n (schedule_one settings w i).
Proof.
  intros (Hnonce & Hrow & Hone).
  destruct (fst w !! i) as [c|] eqn:Hc;
    [| rewrite (schedule_one_absent _ _ Hc); repeat split; assumption].
  pose proof (Hnonce _ _ Hc) as Hcn.
  assert (Hstore : snd (schedule_one settings w i)
                   = snd (step settings c (snd w)))
    by (rewrite (schedule_one_present _ _ _ Hc); reflexivity).
  split; [| split].
  - intros j cj Hj.
    destruct (schedule_one_lookup _ _ _ _ _ Hc Hj) as [(-> & ->) | (Hne & Hj')].
    + rewrite step_nonce. exact Hcn.
    + exact (Hnonce _ _ Hj').
  - intros j cj Hj Hacc. rewrite Hstore.
    destruct (schedule_one_lookup _ _ _ _ _ Hc Hj) as [(-> & ->) | (Hne & Hj')].
    + destruct (accepted c) eqn:Hold.
      * apply step_keeps_rows. exact (Hrow _ _ Hc Hold).
      * rewrite <- Hcn. exact (proj2 (step_newly_accepted _ _ Hold Hacc)).
    + apply step_keeps_rows. exact (Hrow _ _ Hj' Hacc).
  - intros j k cj ck Hj Hk Haj Hak.
    destruct (schedule_one_lookup _ _ _ _ _ Hc Hj) as [(-> & ->) | (Hnej & Hj')];
      destruct (schedule_one_lookup _ _ _ _ _ Hc Hk)
        as [(-> & ->) | (Hnek & Hk')].
    + reflexivity.
    + destruct (accepted c) eqn:Hold.
      * exact (Hone _ _ _ _ Hc Hk' Hold Hak).
      * exfalso. destruct (step_newly_accepted _ _ Hold Haj) as [Hnone _].
        rewrite Hcn in Hnone.
        destruct (Hrow _ _ Hk' Hak) as [x Hx]. congruence.
    + destruct (accepted c) eqn:Hold.
      * exact (Hone _ _ _ _ Hj' Hc Haj Hold).
      * exfalso. destruct (step_newly_accepted _ _ Hold Hak) as [Hnone _].
        rewrite Hcn in Hnone.
        destruct (Hrow _ _ Hj' Haj) as [x Hx]. congruence.
    + exact (Hone _ _ _ _ Hj' Hk' Haj Hak).
Qed.

Lemma single_insert_run schedule w :
  single_insert n w -> single_insert n (run settings schedule w).
Proof.
  revert w. induction schedule as [|i schedule IH]; intros w Hw; [exact Hw |].
  simpl. apply IH. apply single_insert_step. exact Hw.
Qed.

Lemma fresh_calls_lookup calls i c :
  fresh_calls n calls -> calls !! i = Some c ->
  call_nonce c = n /\ call_at c = AtCacheGet.
Proof.
  intros Hfresh Hc. unfold fresh_calls in Hfresh.
  rewrite Forall_forall in Hfresh. apply Hfresh.
  apply list_elem_of_lookup. eauto.
Qed.

Lemma single_insert_fresh calls s :
  fresh_calls n calls -> single_insert n (calls, s).
Proof.
  intros Hfresh. split; [| split]; simpl.
  - intros i c Hc. exact (proj1 (fresh_calls_lookup _ _ _ Hfresh Hc)).
  - intros i c Hc Hacc. unfold accepted in Hacc.
    rewrite (proj2 (fresh_calls_lookup _ _ _ Hfresh Hc)) in Hacc. discriminate.
  - intros i j ci cj Hi Hj Hacc. unfold accepted in Hacc.
    rewrite (proj2 (fresh_calls_lookup _ _ _ Hfresh Hi)) in Hacc. discriminate.
Qed.

(** Whatever the schedule, at most one of the calls that present the same
    nonce inserts its row. *)
Lemma at_most_one_accepted schedule calls s i j ci cj :
  fresh_calls n calls ->
  fst (run settings schedule (calls, s)) !! i = Some ci ->
  fst (run settings schedule (calls, s)) !! j = Some cj ->
  accepted ci = true -> accepted cj = true -> i = j.
Proof.
  intros Hfresh.
  destruct (single_insert_run schedule _ (single_insert_fresh calls s Hfresh))
    as (_ & _ & Hone).
  apply Hone.
Qed.

Lemma schedule_one_lookup_same w i c :
  fst w !! i = Some c ->
  fst (schedule_one settings w i) !! i = Some (fst (step settings c (snd w))).
Proof.
  intros Hc. rewrite (schedule_one_present _ _ _ Hc). simpl.
  apply list_lookup_insert_eq. apply lookup_lt_Some in Hc. exact Hc.
Qed.

Lemma schedule_one_lookup_other w i j :
  j <> i -> fst (schedule_one settings w i) !! j = fst w !! j.
Proof.
  intros Hne. destruct (fst w !! i) as [c|] eqn:Hc.
  - rewrite (schedule_one_present _ _ _ Hc). simpl.
    apply list_lookup_insert_ne. congruence.
  - rewrite (schedule_one_absent _ _ Hc). reflexivity.
Qed.

Lemma waiting_or_inserted_step w i :
  single_insert n w -> waiting_or_inserted n w ->
  waiting_or_inserted n (schedule_one settings w i).
Proof.
  intros (Hnonce & _ & _) Hw.
  destruct (fst w !! i) as [c|] eqn:Hc;
    [| rewrite (schedule_one_absent _ _ Hc); exact Hw].
  pose proof (Hnonce _ _ Hc) as Hcn.
  destruct Hw as [(Hrow & Hflag & Hwait) | (i0 & c0 & Hc0 & Hacc)].
  - rewrite <- Hcn in Hrow, Hflag.
    destruct (step_waiting c (snd w) (Hwait _ _ Hc) Hrow Hflag)
      as [[Hwait' Hsame] | Hacc'].
    + left. rewrite (schedule_one_present _ _ _ Hc). simpl.
      rewrite Hsame, <- Hcn. split; [exact Hrow | split; [exact Hflag |]].
      intros j cj Hj. apply list_lookup_insert_Some in Hj.
      destruct Hj as [(_ & <- & _) | (_ & Hj)]; [exact Hwait' |].
      exact (Hwait _ _ Hj).
    + right. exists i, (fst (step settings c (snd w))).
      split; [apply schedule_one_lookup_same; exact Hc | exact Hacc'].
  - right. destruct (decide (i0 = i)) as [-> | Hne].
    + exists i, (fst (step settings c (snd w))).
      split; [apply schedule_one_lookup_same; exact Hc |].
      apply step_stays_accepted. congruence.
    + exists i0, c0. split; [| exact Hacc].
      rewrite schedule_one_lookup_other by exact Hne. exact Hc0.
Qed.

Lemma failures_known_step w i :
  failures_known w -> failures_known (schedule_one settings w i).
Proof.
  intros Hw j cj e Hj Hfail.
  destruct (fst w !! i) as [c|] eqn:Hc;
    [| rewrite (schedule_one_absent _ _ Hc) in Hj; exact (Hw _ _ _ Hj Hfail)].
  destruct (schedule_one_lookup _ _ _ _ _ Hc Hj) as [(-> & ->) | (Hne & Hj')].
  - destruct (step_failure _ _ _ Hfail) as [Hold | Hnew]; [| exact Hnew].
    exact (Hw _ _ _ Hc Hold).
  - exact (Hw _ _ _ Hj' Hfail).
Qed.

Lemma schedule_one_length w i :
  length (fst (schedule_one settings w i)) = length (fst w).
Proof.
  destruct (fst w !! i) as [c|] eqn:Hc.
  - rewrite (schedule_one_present _ _ _ Hc). simpl. apply length_insert.
  - rewrite (schedule_one_absent _ _ Hc). reflexivity.
Qed.

(** What every schedule keeps. *)
Lemma run_invariants schedule w :
  single_insert n w -> waiting_or_inserted n w -> failures_known w ->
  single_insert n (run settings schedule w)
  /\ waiting_or_inserted n (run settings schedule w)
  /\ failures_known (run settings schedule w)
  /\ length (fst (run settings schedule w)) = length (fst w).
Proof.
  revert w. induction schedule as [|i schedule IH]; intros w H1 H2 H3;
    [auto |].
  simpl.
  destruct (IH (schedule_one settings w i)) as (I1 & I2 & I3 & I4).
  - apply single_insert_step. exact H1.
  - apply waiting_or_inserted_step; assumption.
  - apply failures_known_step. exact H3.
  - rewrite schedule_one_length in I4. auto.
Qed.

(** When the calls that present an unused nonce have all finished, one of
    them has inserted its row, no other has, and each of the others was
    refused for a used nonce or met the constraint of the unique column. *)
Lemma exactly_one_accepted schedule calls s :
  fresh_calls n calls -> calls <> [] ->
  nonces s !! n = None -> cache s !! nonce_cache_key n = None ->
  (forall i c, fst (run settings schedule (calls, s)) !! i = Some c ->
               finished c = true) ->
  exists i c,
    fst (run settings schedule (calls, s)) !! i = Some c
    /\ accepted c = true
    /\ forall j cj,
         fst (run settings schedule (calls, s)) !! j = Some cj -> j <> i ->
         exists e, call_at cj = Finished (Raise e)
                   /\ (e = nonce_reused \/ e = integrity_error).
Proof.
  intros Hfresh Hsome Hrow Hflag Hdone.
  destruct (run_invariants schedule (calls, s)) as (I1 & I2 & I3 & I4).
  - apply single_insert_fresh. exact Hfresh.
  - left. simpl. split; [exact Hrow | split; [exact Hflag |]].
    intros i c Hc. unfold waiting.
    rewrite (proj2 (fresh_calls_lookup _ _ _ Hfresh Hc)). reflexivity.
  - intros i c e Hc Hfail. simpl in Hc.
    rewrite (proj2 (fresh_calls_lookup _ _ _ Hfresh Hc)) in Hfail.
    discriminate.
  - simpl in I4.
    destruct I2 as [(_ & _ & Hwait) | (i & c & Hc & Hacc)].
    + exfalso.
      destruct (lookup_lt_is_Some_2 (fst (run settings schedule (calls, s))) 0%nat)
        as [c Hc].
      { rewrite I4. destruct calls; [contradiction | simpl; lia]. }
      pose proof (Hwait _ _ Hc) as Hw. pose proof (Hdone _ _ Hc) as Hf.
      unfold waiting, finished in *. destruct (call_at c); discriminate.
    + exists i, c. split; [exact Hc | split; [exact Hacc |]].
      intros j cj Hj Hne.
      destruct I1 as (_ & _ & Hone).
      pose proof (Hdone _ _ Hj) as Hf. unfold finished in Hf.
      destruct (call_at cj) as [| | |row|[row|e]] eqn:Hat; try discriminate.
      * exfalso. apply Hne. apply (Hone j i cj c Hj Hc); [| exact Hacc].
        unfold accepted. rewrite Hat. reflexivity.
      * exists e. split; [reflexivity |]. exact (I3 _ _ _ Hj Hat).
Qed.

End Concurrent.

(** ** The call and its accesses *)

Section Accesses.

Variable settings : Settings.
Variable urlparse : urlparser.

Lemma schedule_one_alone c s :
  schedule_one settings ([c], s) 0%nat
  = ([fst (step settings c s)], snd (step settings c s)).
Proof.
  unfold schedule_one. simpl. destruct (step settings c s); reflexivity.
Qed.

Lemma run_alone c s i schedule :
  i = 0%nat ->
  run settings (i :: schedule) ([c], s)
  = run settings schedule ([fst (step settings c s)], snd (step settings c s)).
Proof. intros ->. unfold run. cbn [fold_left]. rewrite schedule_one_alone. reflexivity. Qed.

Lemma step_finished c r s :
  call_at c = Finished r -> step settings c s = (c, s).
Proof. intros Hat. unfold step. rewrite Hat. reflexivity. Qed.

Lemma run_alone_finished c r s schedule :
  call_at c = Finished r ->
  Forall (fun i => i = 0%nat) schedule ->
  run settings schedule ([c], s) = ([c], s).
Proof.
  intros Hat Hall. induction Hall as [|i schedule Hi Hall IH]; [reflexivity |].
  rewrite (run_alone _ _ _ _ Hi), (step_finished _ _ _ Hat). exact IH.
Qed.

(** A call scheduled alone runs its four accesses as [check_nonce] does. *)
Lemma check_nonce_as_steps now token_obj nonce s :
  let c0 := {| call_now := now; call_token_obj := token_obj;
               call_nonce := nonce; call_at := AtCacheGet |} in
  run settings [0; 0; 0; 0]%nat ([c0], s)
  = ([move c0 (Finished (fst (check_nonce settings now token_obj nonce s)))],
     snd (check_nonce settings now token_obj nonce s)).
Proof.
  intros c0. unfold check_nonce, bind, reads, writes, throw, ret.
  rewrite run_alone by reflexivity.
  unfold step at 1 2. cbn [call_at c0 call_now call_nonce].
  destruct (Py.truthy_obj (cache_get now (nonce_cache_key nonce) s)).
  { cbn [fst snd]. apply (run_alone_finished _ (Raise nonce_reused));
      [reflexivity | repeat constructor]. }
  cbn [fst snd]. rewrite run_alone by reflexivity.
  unfold step at 1 2. cbn [call_at move call_now call_nonce c0].
  destruct (nonce_objects_exists nonce s).
  { cbn [fst snd]. apply (run_alone_finished _ (Raise nonce_reused));
      [reflexivity | repeat constructor]. }
  cbn [fst snd]. rewrite run_alone by reflexivity.
  unfold step at 1 2. cbn [call_at move call_now call_nonce call_token_obj c0].
  destruct (nonce_objects_create now nonce token_obj _ s) as [[row|e] s'].
  - cbn [fst snd]. rewrite run_alone by reflexivity. reflexivity.
  - cbn [fst snd]. apply (run_alone_finished _ (Raise e));
      [reflexivity | repeat constructor].
Qed.

(** Between the look-up and the insert of the interleaved call lie the
    accesses of the others: the same four accesses, in the same order. *)
Lemma check_nonce_interleaved_as_steps others now token_obj nonce s :
  let c0 := {| call_now := now; call_token_obj := token_obj;
               call_nonce := nonce; call_at := AtCacheGet |} in
  let w2 := run settings [0; 0]%nat ([c0], s) in
  let w4 := run settings [0; 0]%nat (fst w2, others (snd w2)) in
  ~ registered now nonce s ->
  w4 = ([move c0 (Finished (fst (check_nonce_interleaved settings others now
                                   token_obj nonce s)))],
        snd (check_nonce_interleaved settings others now token_obj nonce s)).
Proof.
  intros c0 w2 w4 Hfresh. subst w4 w2.
  unfold check_nonce_interleaved, bind, reads, writes, throw, ret.
  assert (Hhit : Py.truthy_obj (cache_get now (nonce_cache_key nonce) s)
                 = false).
  { destruct (Py.truthy_obj _) eqn:H; [| reflexivity].
    exfalso. apply Hfresh. right. apply truthy_obj_true. exact H. }
  assert (Hfound : nonce_objects_exists nonce s = false).
  { destruct (nonce_objects_exists nonce s) eqn:H; [| reflexivity].
    exfalso. apply Hfresh. left. apply nonce_objects_exists_true. exact H. }
  rewrite Hhit, Hfound.
  assert (H2 : run settings [0; 0]%nat ([c0], s) = ([move c0 AtCreate], s)).
  { rewrite run_alone by reflexivity.
    unfold step at 1 2. cbn [call_at c0 call_now call_nonce]. rewrite Hhit.
    cbn [fst snd]. rewrite run_alone by reflexivity.
    unfold step. cbn [call_at move call_now call_nonce c0].
    rewrite Hfound. reflexivity. }
  rewrite H2. cbn [fst snd].
  rewrite run_alone by reflexivity.
  unfold step at 1 2. cbn [call_at move call_now call_nonce call_token_obj c0].
  destruct (nonce_objects_create now nonce token_obj _ (others s))
    as [[row|e] s'].
  - cbn [fst snd]. rewrite run_alone by reflexivity. reflexivity.
  - cbn [fst snd]. apply (run_alone_finished _ (Raise e));
      [reflexivity | repeat constructor].
Qed.

(** The answer of the gate when the insert of its call meets the unique
    column's constraint: the error is not caught as a used nonce, and the
    last clause answers 500. *)
Lemma constraint_violation_answer others now request s ok token_obj t :
  gated request = true ->
  validate_origin settings urlparse request = Return ok ->
  headers_present request = true ->
  validate_token now (header request "HTTP_X_API_CHALLENGE_TOKEN") s
  = Return token_obj ->
  validate_timestamp settings now (header request "HTTP_X_API_TIMESTAMP")
  = Return t ->
  ~ registered now (header request "HTTP_X_API_NONCE") s ->
  is_Some (nonces (others s) !! header request "HTTP_X_API_NONCE") ->
  process_request_with settings urlparse
    (check_nonce_interleaved settings others) now request s
  = (Return (Some (rejected settings integrity_error)), others s)
  /\ status (rejected settings integrity_error) = 500.
Proof.
  intros Hgated Horigin Hheaders Htoken Htime Hfresh Hrow. split.
  - rewrite (process_request_gated _ _ _ _ _ _ Hgated).
    rewrite validate_request_stages, Horigin, Hheaders. cbv zeta. simpl negb.
    cbv iota. rewrite Htoken, Htime.
    rewrite (check_nonce_interleaved_conflict _ _ _ _ _ _ Hfresh Hrow).
    reflexivity.
  - unfold rejected. simpl.
    destruct (getattr (DEBUG settings) false); reflexivity.
Qed.

End Accesses.

(** ** The gate on the example deployment *)

(** C1, on the code. Two calls present the nonce [n1]; both look the nonce
    up in the cache and in the table before either inserts. The first
    insert succeeds, and the second meets the constraint of the unique
    column: the call ends with [IntegrityError], which is not
    [NonceReusedError]. *)
Theorem same_nonce_race_raises_integrity_error :
  let calls := [Example.call_of 10000000 "n1"; Example.call_of 10000000 "n1"] in
  let w := run Example.settings [0; 0; 1; 1; 0; 1; 0]%nat (calls, Example.s0) in
  map result_of (fst w)
  = [ Some (Return (nonce_row Example.settings 10000000 Example.tok "n1"));
      Some (Raise integrity_error) ]
  /\ isinstance integrity_error NonceReusedError = false
  /\ status (rejected Example.settings integrity_error) = 500.
Proof. vm_compute. repeat split; reflexivity. Qed.

(** The same two calls one after the other: the second is refused for a
    used nonce. *)
Example same_nonce_in_turn :
  let calls := [Example.call_of 10000000 "n1"; Example.call_of 10000000 "n1"] in
  let w := run Example.settings [0; 0; 0; 0; 1; 1; 1; 1]%nat
             (calls, Example.s0) in
  map result_of (fst w)
  = [ Some (Return (nonce_row Example.settings 10000000 Example.tok "n1"));
      Some (Raise nonce_reused) ].
Proof. vm_compute. reflexivity. Qed.

(** C3, on the code. The request of instant 10 is correctly signed; while
    it stands between its look-up and its insert, another request registers
    the same nonce. The insert meets the constraint and the gate answers
    500, not the 401 of a used nonce. *)
Theorem constraint_violation_answered_500 :
  let others :=
    fun s => snd (check_nonce Example.settings 10000000 Example.tok "n1" s) in
  fst (process_request_with Example.settings Example.urlparse
         (check_nonce_interleaved Example.settings others) 10000000
         (Example.signed "10" "n1" Example.sig_n1) Example.s0)
  = Return (Some (error_response "Security validation failed" 500)).
Proof. vm_compute. reflexivity. Qed.

(** The same request with no other request in between is let through, and
    after the other request it is answered that the nonce was used. *)
Example signed_request_alone :
  fst (process_request Example.settings Example.urlparse 10000000
         (Example.signed "10" "n1" Example.sig_n1) Example.s0)
  = Return None
  /\ fst (process_request Example.settings Example.urlparse 10000000
            (Example.signed "10" "n1" Example.sig_n1)
            (snd (check_nonce Example.settings 10000000 Example.tok "n1"
                    Example.s0)))
     = Return (Some (error_response "Nonce has already been used" 401)).
Proof. vm_compute. split; reflexivity. Qed.

(** C5, on the code. The signature of the request differs from the expected
    digest by its first character, which is the code point 233: the
    comparison raises [TypeError] and the gate answers 500. With the
    character [0] in its place the answer is the 401 of a bad signature. *)
Theorem non_ascii_signature_answered_500 :
  let bad := String (Py.chr 233) (String.substring 1 63 Example.sig_n1) in
  validate_signature 10000000 "tok" "10" "n1" "POST" "/api/orders/" ""
                     bad Example.s0
  = Raise (raise_ TypeError
             "comparing strings with non-ASCII characters is not supported")
  /\ fst (process_request Example.settings Example.urlparse 10000000
            (Example.signed "10" "n1" bad) Example.s0)
     = Return (Some (error_response "Security validation failed" 500))
  /\ fst (process_request Example.settings Example.urlparse 10000000
            (Example.signed "10" "n1"
               (String "0" (String.substring 1 63 Example.sig_n1)))
            Example.s0)
     = Return (Some (error_response "Invalid signature" 401)).
Proof. vm_compute. repeat split; reflexivity. Qed.

(** The digest of the example is the one the interpreter computes. *)
Example sig_n1_is_expected :
  calculate_signature "tok" "sec" "10" "n1" "POST" "/api/orders/" ""
  = Example.sig_n1.
Proof. vm_compute. reflexivity. Qed.

(** Signed under the secret of another token, the request is a mismatch. *)
Example other_secret_mismatch :
  validate_signature 10000000 "tok" "10" "n1" "POST" "/api/orders/" ""
    (calculate_signature "tok" "other" "10" "n1" "POST" "/api/orders/" "")
    Example.s0
  = Raise (raise_ InvalidSignatureError "Invalid signature").
Proof. vm_compute. reflexivity. Qed.

(** C7, as the spec states it, fails. A request without the four headers
    and a request with an unknown token both fail a check of the
    authentication category, and the two answers differ: the body names the
    check. *)
Lemma generic_payload_refuted :
  ~ (forall now r1 r2 s f1 f2,
       gated r1 = true -> gated r2 = true ->
       first_failure Example.settings Example.urlparse now r1 s = Some f1 ->
       first_failure Example.settings Example.urlparse now r2 s = Some f2 ->
       authentication_failure f1 = true ->
       authentication_failure f2 = true ->
       fst (process_request Example.settings Example.urlparse now r1 s)
       = fst (process_request Example.settings Example.urlparse now r2 s)).
Proof.
  intros Hsame.
  specialize (Hsame 10000000
    (Example.request "https://shop.example" [])
    (Example.request "https://shop.example"
       [ ("HTTP_X_API_CHALLENGE_TOKEN", "unknown");
         ("HTTP_X_API_TIMESTAMP", "10");
         ("HTTP_X_API_NONCE", "n1");
         ("HTTP_X_API_SIGNATURE", Example.sig_n1) ])
    Example.s0
    MissingHeaders
    (Raised (raise_ TokenExpiredError "Invalid token"))).
  vm_compute in Hsame.
  specialize (Hsame eq_refl eq_refl eq_refl eq_refl eq_refl eq_refl).
  discriminate Hsame.
Qed.

(** The two answers of the refutation. *)
Example answers_name_the_check :
  fst (process_request Example.settings Example.urlparse 10000000
         (Example.request "https://shop.example" []) Example.s0)
  = Return (Some (error_response "Missing required security headers" 401))
  /\ fst (process_request Example.settings Example.urlparse 10000000
            (Example.request "https://shop.example"
               [ ("HTTP_X_API_CHALLENGE_TOKEN", "unknown");
                 ("HTTP_X_API_TIMESTAMP", "10");
                 ("HTTP_X_API_NONCE", "n1");
                 ("HTTP_X_API_SIGNATURE", Example.sig_n1) ])
            Example.s0)
     = Return (Some (error_response "Invalid or expired token" 401))
  /\ fst (process_request Example.settings Example.urlparse 10000000
            (Example.request "https://evil.example/page" []) Example.s0)
     = Return (Some (error_response "Invalid origin: https://evil.example"
                                    401)).
Proof. vm_compute. repeat split; reflexivity. Qed.

(** *** The theorems at work *)

Lemma authentication_failure_is_401_witness :
  gated (Example.request "https://shop.example" []) = true
  /\ exists message,
       fst (process_request Example.settings Example.urlparse 10000000
              (Example.request "https://shop.example" []) Example.s0)
       = Return (Some (error_response message 401)).
Proof.
  split; [reflexivity |].
  destruct (authentication_failure_is_401 Example.settings Example.urlparse
              10000000 (Example.request "https://shop.example" [])
              Example.s0 eq_refl) as [Hauth _].
  destruct (Hauth MissingHeaders eq_refl eq_refl) as [message [Hanswer _]].
  exists message. exact Hanswer.
Defined.

Lemma validate_token_spec_witness :
  tokens Example.s0 !! ApiChallengeToken.token Example.tok = Some Example.tok
  /\ validate_token 300000000 "tok" Example.s0 = Return Example.tok.
Proof.
  split; [reflexivity |].
  destruct (validate_token_spec 300000000 Example.s0 Example.tok eq_refl)
    as (_ & _ & _ & Hboundary & _).
  apply Hboundary; reflexivity.
Defined.

Lemma registered_nonce_is_refused_witness :
  let s1 := snd (check_nonce Example.settings 10000000 Example.tok "n1"
                   Example.s0) in
  registered 15000000 "n1" s1
  /\ check_nonce Example.settings 15000000 Example.tok2 "n1" s1
     = (Raise nonce_reused, s1).
Proof.
  intros s1.
  assert (Hregistered : registered 15000000 "n1" s1).
  { left. eexists. vm_compute. reflexivity. }
  split; [exact Hregistered |].
  apply (registered_nonce_is_refused Example.settings Example.urlparse
           15000000 "n1" s1 Hregistered).
Defined.

Lemma exempt_request_passes_witness :
  let preflight :=
    {| path := "/api/orders/"; method := "OPTIONS"; META := ∅; body := "" |} in
  method preflight = "OPTIONS"
  /\ process_request Example.settings Example.urlparse 10000000 preflight
       Example.s0
     = (Return None, Example.s0).
Proof.
  intros preflight. split; [reflexivity |].
  apply exempt_request_passes. right. right. left. reflexivity.
Defined.

Lemma empty_header_is_missing_witness :
  let request :=
    Example.request "https://shop.example"
      [ ("HTTP_X_API_CHALLENGE_TOKEN", "");
        ("HTTP_X_API_TIMESTAMP", "10");
        ("HTTP_X_API_NONCE", "n1");
        ("HTTP_X_API_SIGNATURE", Example.sig_n1) ] in
  gated request = true
  /\ META request !! "HTTP_X_API_CHALLENGE_TOKEN" = Some ""
  /\ process_request Example.settings Example.urlparse 10000000 request
       Example.s0
     = (Return (Some (error_response "Missing required security headers"
                                     401)), Example.s0).
Proof.
  intros request.
  assert (Hgated : gated request = true) by reflexivity.
  assert (Hempty : META request !! "HTTP_X_API_CHALLENGE_TOKEN" = Some "")
    by (vm_compute; reflexivity).
  split; [exact Hgated | split; [exact Hempty |]].
  destruct (empty_header_is_missing Example.settings Example.urlparse 10000000
              request Example.s0 "HTTP_X_API_CHALLENGE_TOKEN" Hgated
              (or_introl eq_refl) Hempty) as (_ & _ & _ & Hanswer & _).
  apply (Hanswer true). vm_compute. reflexivity.
Defined.

Lemma rejected_signature_consumes_nonce_witness :
  let request := Example.signed "10" "n1" "00" in
  let s1 := snd (process_request Example.settings Example.urlparse 10000000
                   request Example.s0) in
  process_request Example.settings Example.urlparse 10000000 request Example.s0
  = (Return (Some (error_response "Invalid signature" 401)), s1)
  /\ is_Some (nonces s1 !! "n1")
  /\ process_request Example.settings Example.urlparse 15000000
       (Example.signed "10" "n1" Example.sig_n1) s1
     = (Return (Some (error_response "Nonce has already been used" 401)), s1).
Proof.
  intros request s1.
  assert (Hrejected :
    process_request Example.settings Example.urlparse 10000000 request
      Example.s0
    = (Return (Some (error_response "Invalid signature" 401)), s1)).
  { rewrite (surjective_pairing (process_request _ _ _ _ _)). fold s1.
    apply (f_equal (fun answer => (answer, s1))). vm_compute. reflexivity. }
  split; [exact Hrejected |].
  destruct (rejected_signature_consumes_nonce Example.settings Example.urlparse
              10000000 request Example.s0 s1 eq_refl Hrejected)
    as (_ & Hrow & _ & Hlater).
  split; [exact Hrow |].
  apply (Hlater 15000000 (Example.signed "10" "n1" Example.sig_n1) true
           Example.tok 10).
  - reflexivity.
  - reflexivity.
  - vm_compute. reflexivity.
  - reflexivity.
  - vm_compute. reflexivity.
  - vm_compute. reflexivity.
Defined.

(** The window of the timestamp at instant 10 with a tolerance of 60. *)
Example validate_timestamp_window :
  validate_timestamp Example.settings 10000000 "70" = Return 70
  /\ validate_timestamp Example.settings 10000000 "-50" = Return (-50)
  /\ validate_timestamp Example.settings 10000000 "71"
     = Raise (raise_ InvalidTimestampError (outside_tolerance_message 60))
  /\ validate_timestamp Example.settings 10000000 "-51"
     = Raise (raise_ InvalidTimestampError (outside_tolerance_message 60))
  /\ validate_timestamp Example.settings 10000000 "ten"
     = Raise (raise_ InvalidTimestampError "Invalid timestamp format").
Proof. vm_compute. repeat split; reflexivity. Qed.

Lemma validate_timestamp_spec_witness :
  Py.int_of_str "70" = Some 70
  /\ validate_timestamp Example.settings 10999999 "70" = Return 70.
Proof.
  split; [reflexivity |].
  destruct (validate_timestamp_spec Example.settings 10999999 "70")
    as (_ & Hparsed & _).
  destruct (Hparsed 70 eq_refl) as (_ & _ & Hboundary & _).
  apply Hboundary. reflexivity.
Defined.

(** * Further properties of the code *)

(** ** The format of digests and signatures *)

Section DigestFormat.

Lemma hex_length bs :
  String.length (Sha256.hex bs) = (2 * List.length bs)%nat.
Proof.
  induction bs as [|b bs IH]; [reflexivity |].
  cbn [Sha256.hex String.length List.length]. rewrite IH. lia.
Qed.

Lemma hex_digit_is_hex d : is_hex_char (Sha256.hex_digit d) = true.
Proof.
  unfold Sha256.hex_digit.
  apply (nth_Forall (fun c => is_hex_char c = true)).
  - repeat constructor.
  - reflexivity.
Qed.

Lemma hex_is_hex bs : is_hex (Sha256.hex bs) = true.
Proof.
  induction bs as [|b bs IH]; [reflexivity |].
  cbn [Sha256.hex is_hex]. rewrite !hex_digit_is_hex, IH. reflexivity.
Qed.

Lemma round_length st kw : List.length (Sha256.round st kw) = 8%nat.
Proof. reflexivity. Qed.

Lemma fold_round_length l st :
  List.length st = 8%nat ->
  List.length (fold_left Sha256.round l st) = 8%nat.
Proof.
  revert st. induction l as [|kw l IH]; intros st Hst; [exact Hst |].
  simpl. apply IH. apply round_length.
Qed.

Lemma compress_length h block :
  List.length h = 8%nat -> List.length (Sha256.compress h block) = 8%nat.
Proof.
  intros Hh. unfold Sha256.compress.
  rewrite length_map, length_combine, fold_round_length by exact Hh.
  rewrite Hh. reflexivity.
Qed.

Lemma blocks_length n h bs :
  List.length h = 8%nat -> List.length (Sha256.blocks n h bs) = 8%nat.
Proof.
  revert h bs. induction n as [|n IH]; intros h bs Hh; [exact Hh |].
  simpl. apply IH. apply compress_length. exact Hh.
Qed.

Lemma be_bytes_length n x : List.length (Sha256.be_bytes n x) = n.
Proof. induction n as [|n IH]; simpl; [reflexivity | rewrite IH; reflexivity]. Qed.

Lemma flat_map_be_bytes_length h :
  List.length (flat_map (Sha256.be_bytes 4) h) = (4 * List.length h)%nat.
Proof.
  induction h as [|x h IH]; [reflexivity |].
  cbn [flat_map]. rewrite length_app, be_bytes_length, IH. simpl. lia.
Qed.

(** A digest has 32 bytes, whatever the message. *)
Lemma digest_length msg : List.length (Sha256.digest msg) = 32%nat.
Proof.
  unfold Sha256.digest. rewrite flat_map_be_bytes_length.
  rewrite blocks_length by reflexivity. reflexivity.
Qed.

Lemma hmac_length key msg : List.length (Sha256.hmac key msg) = 32%nat.
Proof. unfold Sha256.hmac. apply digest_length. Qed.

(** The expected signature is 64 lower-case hexadecimal digits. *)
Lemma calculate_signature_format token secret timestamp nonce method path
    body_hash :
  let expected :=
    calculate_signature token secret timestamp nonce method path body_hash in
  String.length expected = 64%nat /\ is_hex expected = true.
Proof.
  unfold calculate_signature, Sha256.hmac_hexdigest. split.
  - rewrite hex_length, hmac_length. reflexivity.
  - apply hex_is_hex.
Qed.

(** X1. A signature that [validate_signature] accepts is 64 lower-case
    hexadecimal digits: no other string is ever accepted, whatever the
    token. *)
Theorem accepted_signature_format (now : Z) (s : store)
    (token timestamp nonce method path body_hash signature : string)
    (Haccepted : validate_signature now token timestamp nonce method path
                   body_hash signature s = Return true) :
  String.length signature = 64%nat /\ is_hex signature = true.
Proof.
  apply validate_signature_succeeds_iff in Haccepted as (row & _ & ->).
  apply calculate_signature_format.
Qed.

(** X2. [hash_body] is the empty string for the empty body only, and 64
    lower-case hexadecimal digits for every other body. *)
Theorem hash_body_format (body_bytes : string) :
  (hash_body body_bytes = "" <-> body_bytes = "")
  /\ (body_bytes <> "" ->
      String.length (hash_body body_bytes) = 64%nat
      /\ is_hex (hash_body body_bytes) = true).
Proof.
  assert (Hfull : body_bytes <> "" ->
                  String.length (hash_body body_bytes) = 64%nat
                  /\ is_hex (hash_body body_bytes) = true).
  { intros Hne. unfold hash_body.
    destruct body_bytes as [|c rest]; [contradiction |].
    cbn [Py.truthy negb]. unfold Sha256.hexdigest. split.
    - rewrite hex_length, digest_length. reflexivity.
    - apply hex_is_hex. }
  split; [| exact Hfull].
  split.
  - intros Hempty. destruct body_bytes as [|c rest]; [reflexivity |].
    destruct (Hfull ltac:(discriminate)) as [Hlen _].
    rewrite Hempty in Hlen. discriminate.
  - intros ->. reflexivity.
Qed.

End DigestFormat.

(** ** The signing string *)

Section SigningString.

Lemma contains_pipe_cons c s :
  Py.contains "|" (String c s) = Ascii.eqb c "|" || Py.contains "|" s.
Proof.
  cbn [Py.contains String.prefix].
  destruct (ascii_dec "|" c) as [<- | Hne].
  - rewrite Ascii.eqb_refl. destruct s; reflexivity.
  - assert (Hc : Ascii.eqb c "|" = false).
    { apply Ascii.eqb_neq. congruence. }
    rewrite Hc. reflexivity.
Qed.

Lemma no_pipe_cons c s :
  no_pipe (String c s) = true -> c <> "|"%char /\ no_pipe s = true.
Proof.
  unfold no_pipe. rewrite contains_pipe_cons, negb_orb, andb_true_iff.
  intros [Hc Hs]. split; [| exact Hs].
  apply negb_true_iff in Hc. apply Ascii.eqb_neq. exact Hc.
Qed.

(** Two fields without delimiter that are followed by one and by equal
    texts are equal, and so are the texts. *)
Lemma field_split a a' r r' :
  no_pipe a = true -> no_pipe a' = true ->
  a +:+ "|" +:+ r = a' +:+ "|" +:+ r' ->
  a = a' /\ r = r'.
Proof.
  revert a'. induction a as [|c a IH]; intros [|c' a'] Ha Ha' Heq.
  - simpl in Heq. inversion Heq. auto.
  - apply no_pipe_cons in Ha' as [Hc' _].
    simpl in Heq. inversion Heq. congruence.
  - apply no_pipe_cons in Ha as [Hc _].
    simpl in Heq. inversion Heq. congruence.
  - apply no_pipe_cons in Ha as [_ Ha].
    apply no_pipe_cons in Ha' as [_ Ha'].
    simpl in Heq. inversion Heq as [[Hc Hrest]].
    destruct (IH a' Ha Ha' Hrest) as [-> ->]. auto.
Qed.

(** X3. Among requests whose token, timestamp, nonce, method and path hold
    no [|], the signing string determines all six fields: two requests
    that differ in a field are signed over different strings. *)
Theorem signature_string_injective
    (token timestamp nonce method path body_hash : string)
    (token' timestamp' nonce' method' path' body_hash' : string)
    (Htoken : no_pipe token = true) (Htoken' : no_pipe token' = true)
    (Htimestamp : no_pipe timestamp = true)
    (Htimestamp' : no_pipe timestamp' = true)
    (Hnonce : no_pipe nonce = true) (Hnonce' : no_pipe nonce' = true)
    (Hmethod : no_pipe method = true) (Hmethod' : no_pipe method' = true)
    (Hpath : no_pipe path = true) (Hpath' : no_pipe path' = true)
    (Hsame : signature_string token timestamp nonce method path body_hash
             = signature_string token' timestamp' nonce' method' path'
                 body_hash') :
  token = token' /\ timestamp = timestamp' /\ nonce = nonce'
  /\ method = method' /\ path = path' /\ body_hash = body_hash'.
Proof.
  unfold signature_string in Hsame.
  apply field_split in Hsame as [-> Hsame]; [| assumption | assumption].
  apply field_split in Hsame as [-> Hsame]; [| assumption | assumption].
  apply field_split in Hsame as [-> Hsame]; [| assumption | assumption].
  apply field_split in Hsame as [-> Hsame]; [| assumption | assumption].
  apply field_split in Hsame as [-> Hsame]; [| assumption | assumption].
  subst. repeat split; reflexivity.
Qed.

Lemma append_assoc3 (a b c : string) : (a +:+ b) +:+ c = a +:+ b +:+ c.
Proof.
  induction a as [|x a IH]; [reflexivity |].
  change (String x ((a +:+ b) +:+ c) = String x (a +:+ b +:+ c)).
  rewrite IH. reflexivity.
Qed.

(** X4. The delimiter is not escaped: moving a [|] and what follows it from
    the end of the nonce to the front of the path leaves the signing
    string, the expected signature and the verdict of [validate_signature]
    as they were. *)
Theorem signature_string_delimiter_shift (now : Z) (s : store)
    (token timestamp nonce method middle method2 path2 body_hash
       signature : string) :
  let moved := middle +:+ "|" +:+ method2 +:+ "|" +:+ path2 in
  let long_nonce := nonce +:+ "|" +:+ method +:+ "|" +:+ middle in
  signature_string token timestamp nonce method moved body_hash
  = signature_string token timestamp long_nonce method2 path2 body_hash
  /\ (forall secret,
        calculate_signature token secret timestamp nonce method moved
                            body_hash
        = calculate_signature token secret timestamp long_nonce method2 path2
                              body_hash)
  /\ validate_signature now token timestamp nonce method moved body_hash
                        signature s
     = validate_signature now token timestamp long_nonce method2 path2
                          body_hash signature s.
Proof.
  intros moved long_nonce.
  assert (Hstring :
    signature_string token timestamp nonce method moved body_hash
    = signature_string token timestamp long_nonce method2 path2 body_hash).
  { subst moved long_nonce. unfold signature_string.
    rewrite !append_assoc3. reflexivity. }
  assert (Hsig : forall secret,
    calculate_signature token secret timestamp nonce method moved body_hash
    = calculate_signature token secret timestamp long_nonce method2 path2
        body_hash).
  { intros secret. unfold calculate_signature. rewrite Hstring. reflexivity. }
  split; [exact Hstring | split; [exact Hsig |]].
  destruct (validate_token now token s) as [row|e] eqn:Htoken.
  - rewrite !(validate_signature_valid_token _ _ _ _ _ _ _ _ _ _ Htoken).
    rewrite Hsig. reflexivity.
  - rewrite !(validate_signature_invalid_token _ _ _ _ _ _ _ _ _ _ Htoken).
    reflexivity.
Qed.

End SigningString.

(** ** Issued tokens *)

Section IssuedTokens.

Variable settings : Settings.


Lemma id_in_use_true i s :
  id_in_use i s = true
  <-> exists k row, tokens s !! k = Some row /\ ApiChallengeToken.id row = i.
Proof.
  unfold id_in_use. rewrite negb_true_iff, bool_decide_eq_false.
  rewrite map_not_Forall by (intros; apply _).
  split; intros (k & row & Hrow & Hid); exists k, row; split; auto.
  - destruct (decide (ApiChallengeToken.id row = i)); [auto | contradiction].
Qed.

(** X5. The validity of a token only decreases with time: a token string
    that [validate_token] accepts at an instant is accepted, with the same
    row, at every earlier instant, so a token refused once is refused ever
    after while its row stays as it is. *)
Theorem validate_token_earlier (now later : Z) (token_string : string)
    (s : store) (row : ApiChallengeToken.t)
    (Horder : now <= later)
    (Hvalid : validate_token later token_string s = Return row) :
  validate_token now token_string s = Return row.
Proof.
  apply validate_token_returns in Hvalid as [Hrow Hvalid].
  rewrite (validate_token_found _ _ _ _ Hrow).
  apply is_valid_iff in Hvalid as [Hrevoked Hexpiry].
  assert (Hnow : ApiChallengeToken.is_valid now row = true).
  { apply is_valid_iff. split; [exact Hrevoked | lia]. }
  rewrite Hnow. reflexivity.
Qed.






End IssuedTokens.

(** ** Revoked tokens *)

Section RevokedTokens.

Lemma with_is_revoked_same row :
  with_is_revoked (ApiChallengeToken.is_revoked row) row = row.
Proof. destruct row; reflexivity. Qed.

Lemma save_is_revoked_stored self k s :
  tokens s !! k = Some self ->
  forall marked,
    ApiChallengeToken.id marked = ApiChallengeToken.id self ->
    save_is_revoked marked s
    = (Return tt,
       set_tokens s
         ((fun row =>
             if N.eqb (ApiChallengeToken.id row) (ApiChallengeToken.id marked)
             then with_is_revoked (ApiChallengeToken.is_revoked marked) row
             else row) <$> tokens s)).
Proof.
  intros Hself marked Hid. unfold save_is_revoked.
  assert (Huse : id_in_use (ApiChallengeToken.id marked) s = true).
  { apply id_in_use_true. exists k, self. split; [exact Hself | congruence]. }
  rewrite Huse. reflexivity.
Qed.

(** The table after the row of [self] was marked. *)
Lemma token_revoke_stored self k s :
  ids_unique s ->
  tokens s !! k = Some self ->
  exists s',
    token_revoke self s = (Return (ApiChallengeToken.revoke self), s')
    /\ nonces s' = nonces s
    /\ cache s' = cache s
    /\ tokens s' !! k = Some (ApiChallengeToken.revoke self)
    /\ (forall k', k' <> k -> tokens s' !! k' = tokens s !! k')
    /\ ids_unique s'.
Proof.
  intros Hunique Hself. unfold token_revoke, bind, ret.
  rewrite (save_is_revoked_stored self k s Hself
             (ApiChallengeToken.revoke self) eq_refl).
  eexists. split; [reflexivity |].
  split; [reflexivity |]. split; [reflexivity |].
  assert (Hlookup : forall k' r,
            tokens s !! k' = Some r ->
            (set_tokens s
               ((fun row =>
                   if N.eqb (ApiChallengeToken.id row)
                            (ApiChallengeToken.id
                               (ApiChallengeToken.revoke self))
                   then with_is_revoked
                          (ApiChallengeToken.is_revoked
                             (ApiChallengeToken.revoke self)) row
                   else row) <$> tokens s)).(tokens) !! k'
            = Some (if decide (k' = k) then ApiChallengeToken.revoke r
                    else r)).
  { intros k' r Hr. simpl. rewrite lookup_fmap, Hr. simpl. f_equal.
    destruct (decide (k' = k)) as [-> | Hne].
    - assert (r = self) by congruence. subst r.
      rewrite N.eqb_refl. reflexivity.
    - destruct (N.eqb_spec (ApiChallengeToken.id r) (ApiChallengeToken.id self))
        as [Hsame | Hdiff]; [| reflexivity].
      exfalso. apply Hne. exact (Hunique _ _ _ _ Hr Hself Hsame). }
  split; [| split].
  - rewrite (Hlookup k self Hself). rewrite decide_True by reflexivity.
    reflexivity.
  - intros k' Hne. destruct (tokens s !! k') as [r|] eqn:Hr.
    + rewrite (Hlookup k' r Hr). rewrite decide_False by exact Hne.
      reflexivity.
    + simpl. rewrite lookup_fmap, Hr. reflexivity.
  - intros k1 k2 r1 r2 H1 H2 Hsame.
    simpl in H1, H2. rewrite lookup_fmap in H1, H2.
    destruct (tokens s !! k1) as [q1|] eqn:Hq1; [| discriminate].
    destruct (tokens s !! k2) as [q2|] eqn:Hq2; [| discriminate].
    simpl in H1, H2. inversion H1; subst r1. inversion H2; subst r2.
    apply (Hunique k1 k2 q1 q2 Hq1 Hq2).
    destruct (N.eqb _ _) in Hsame; destruct (N.eqb _ _) in Hsame;
      exact Hsame.
Qed.

(** X9. Once a stored token is revoked, [validate_token] refuses it at
    every instant, whatever its expiry; the other tokens, the nonces and
    the cache are untouched. *)
Theorem revoked_token_is_refused (self : ApiChallengeToken.t) (k : string)
    (s : store)
    (Hunique : ids_unique s)
    (Hstored : tokens s !! k = Some self) :
  exists s',
    token_revoke self s = (Return (ApiChallengeToken.revoke self), s')
    /\ (forall instant,
          validate_token instant k s'
          = Raise (raise_ TokenExpiredError "Token expired or revoked"))
    /\ (forall instant k', k' <> k ->
          validate_token instant k' s' = validate_token instant k' s)
    /\ nonces s' = nonces s
    /\ cache s' = cache s.
Proof.
  destruct (token_revoke_stored self k s Hunique Hstored)
    as (s' & Hrun & Hnonces & Hcache & Hrow & Hother & _).
  exists s'. split; [exact Hrun |].
  split; [| split; [| split; assumption]].
  - intros instant. rewrite (validate_token_found _ _ _ _ Hrow).
    unfold ApiChallengeToken.is_valid. simpl. rewrite andb_false_r.
    reflexivity.
  - intros instant k' Hne. unfold validate_token, token_objects_get.
    rewrite (Hother k' Hne). reflexivity.
Qed.

Lemma rows_of_lookup s queryset row :
  rows_of s queryset -> In row queryset ->
  tokens s !! ApiChallengeToken.token row = Some row.
Proof.
  unfold rows_of. rewrite Forall_forall. intros Hall Hin.
  apply Hall. apply list_elem_of_In. exact Hin.
Qed.

Lemma revoke_each_spec queryset :
  forall s count,
    ids_unique s ->
    NoDup (map ApiChallengeToken.token queryset) ->
    rows_of s queryset ->
    exists s',
      revoke_each queryset count s
      = (Return (count + Z.of_nat (List.length (to_revoke queryset))), s')
      /\ nonces s' = nonces s
      /\ cache s' = cache s
      /\ (forall row, In row queryset ->
            tokens s' !! ApiChallengeToken.token row
            = Some (with_is_revoked true row))
      /\ (forall k, ~ In k (map ApiChallengeToken.token queryset) ->
            tokens s' !! k = tokens s !! k).
Proof.
  induction queryset as [|head rest IH]; intros s count Hunique Hnodup Hrows.
  - exists s. simpl. rewrite Z.add_0_r. repeat split; auto.
    intros row [].
  - apply NoDup_cons in Hnodup as [Hfresh Hnodup].
    assert (Hhead : tokens s !! ApiChallengeToken.token head = Some head)
      by (apply (rows_of_lookup s (head :: rest)); [exact Hrows | left; auto]).
    assert (Hrest : rows_of s rest)
      by (unfold rows_of in *; apply Forall_cons in Hrows as [_ H]; exact H).
    cbn [revoke_each to_revoke List.filter].
    destruct (ApiChallengeToken.is_revoked head) eqn:Hrevoked; cbn [negb].
    + destruct (IH s count Hunique Hnodup Hrest)
        as (s' & Hrun & Hn & Hc & Hin & Hout).
      exists s'. split; [exact Hrun |].
      split; [exact Hn |]. split; [exact Hc |]. split.
      * intros row [<- | Hrow]; [| exact (Hin row Hrow)].
        rewrite Hout by (intros Habs; apply Hfresh; apply list_elem_of_In;
                         exact Habs).
        rewrite Hhead, <- Hrevoked, with_is_revoked_same. reflexivity.
      * intros k Hk. apply Hout. intros Habs. apply Hk. right. exact Habs.
    + destruct (token_revoke_stored head _ s Hunique Hhead)
        as (s1 & Hrun1 & Hn1 & Hc1 & Hrow1 & Hother1 & Hunique1).
      assert (Hrest1 : rows_of s1 rest).
      { unfold rows_of in *. rewrite Forall_forall in *.
        intros row Hrow. rewrite Hother1; [exact (Hrest row Hrow) |].
        intros Hsame. apply Hfresh. apply list_elem_of_In.
        rewrite <- Hsame. apply in_map. apply list_elem_of_In. exact Hrow. }
      destruct (IH s1 (count + 1) Hunique1 Hnodup Hrest1)
        as (s' & Hrun & Hn & Hc & Hin & Hout).
      exists s'. split.
      { unfold bind. rewrite Hrun1, Hrun. unfold to_revoke.
        cbn [List.length]. rewrite Nat2Z.inj_succ.
        apply (f_equal (fun n => (Return n, s'))). lia. }
      split; [congruence |]. split; [congruence |]. split.
      * intros row [<- | Hrow]; [| exact (Hin row Hrow)].
        rewrite Hout by (intros Habs; apply Hfresh; apply list_elem_of_In;
                         exact Habs).
        rewrite Hrow1. reflexivity.
      * intros k Hk. rewrite Hout by (intros Habs; apply Hk; right; exact Habs).
        apply Hother1. intros ->. apply Hk. left. reflexivity.
Qed.
End RevokedTokens.

Section AdminAction.

Lemma revoke_each_marked queryset count s :
  Forall (fun row => ApiChallengeToken.is_revoked row = true) queryset ->
  revoke_each queryset count s = (Return count, s).
Proof.
  intros Hall. revert count.
  induction Hall as [|row rest Hrow Hall IH]; intros count; [reflexivity |].
  cbn [revoke_each]. rewrite Hrow. cbn [negb]. apply IH.
Qed.

(** X10. The admin action [revoke_tokens] on the rows of a queryset marks
    every one of them, so that [validate_token] refuses each selected
    token at every instant; it reports the number of rows that were not
    yet revoked, leaves the tokens it was not given, the nonces and the
    cache as they were, and run again on the marked rows it reports zero
    and changes nothing. *)
Theorem revoke_tokens_marks_selected (queryset : list ApiChallengeToken.t)
    (s : store)
    (Hunique : ids_unique s)
    (Hdistinct : NoDup (map ApiChallengeToken.token queryset))
    (Hrows : rows_of s queryset) :
  exists s',
    revoke_tokens queryset s
    = (Return (Py.str_of_int (Z.of_nat (List.length (to_revoke queryset)))
               +:+ " token(s) revoked."), s')
    /\ (forall row instant, In row queryset ->
          validate_token instant (ApiChallengeToken.token row) s'
          = Raise (raise_ TokenExpiredError "Token expired or revoked"))
    /\ (forall k instant, ~ In k (map ApiChallengeToken.token queryset) ->
          validate_token instant k s' = validate_token instant k s)
    /\ nonces s' = nonces s
    /\ cache s' = cache s
    /\ revoke_tokens (map (with_is_revoked true) queryset) s'
       = (Return "0 token(s) revoked.", s').
Proof.
  destruct (revoke_each_spec queryset s 0 Hunique Hdistinct Hrows)
    as (s' & Hrun & Hn & Hc & Hin & Hout).
  exists s'. split.
  { unfold revoke_tokens, bind, ret. rewrite Hrun. reflexivity. }
  split; [| split; [| split; [exact Hn | split; [exact Hc |]]]].
  - intros row instant Hrow.
    rewrite (validate_token_found _ _ _ _ (Hin row Hrow)).
    unfold ApiChallengeToken.is_valid. simpl. rewrite andb_false_r.
    reflexivity.
  - intros k instant Hk. unfold validate_token, token_objects_get.
    rewrite (Hout k Hk). reflexivity.
  - unfold revoke_tokens, bind, ret.
    rewrite revoke_each_marked; [reflexivity |].
    apply Forall_forall. intros row Hrow.
    apply list_elem_of_In, in_map_iff in Hrow as (r & <- & _). reflexivity.
Qed.

End AdminAction.

(** ** What the gate lets through *)

Section Allowed.

Variable settings : Settings.
Variable urlparse : urlparser.

Lemma validate_timestamp_returns now timestamp_str t :
  validate_timestamp settings now timestamp_str = Return t
  <-> Py.int_of_str timestamp_str = Some t
      /\ Z.abs (timestamp now - t)
         <= getattr (API_REQUEST_TIMESTAMP_TOLERANCE settings) 60.
Proof.
  unfold validate_timestamp.
  destruct (Py.int_of_str timestamp_str) as [parsed|].
  - destruct (_ <? _) eqn:Hcmp.
    + apply Z.ltb_lt in Hcmp. split; [discriminate |].
      intros [Hp Hle]. inversion Hp; subst. lia.
    + apply Z.ltb_ge in Hcmp. split.
      * intros H. inversion H; subst. auto.
      * intros [Hp _]. inversion Hp; subst. reflexivity.
  - split; [discriminate |]. intros [Hp _]. discriminate.
Qed.

Lemma validate_token_returns_iff now token_string s row :
  validate_token now token_string s = Return row
  <-> tokens s !! token_string = Some row
      /\ ApiChallengeToken.is_revoked row = false
      /\ now <= ApiChallengeToken.expires_at row.
Proof.
  split.
  - intros H. apply validate_token_returns in H as [Hrow Hvalid].
    apply is_valid_iff in Hvalid. tauto.
  - intros (Hrow & Hvalid). rewrite (validate_token_found _ _ _ _ Hrow).
    apply is_valid_iff in Hvalid. rewrite Hvalid. reflexivity.
Qed.

(** The conditions under which a gated request is let through. *)
Lemma process_request_allowed_iff (now : Z) (request : HttpRequest)
    (s s' : store) (Hgated : gated request = true) :
  let token := header request "HTTP_X_API_CHALLENGE_TOKEN" in
  let timestamp_str := header request "HTTP_X_API_TIMESTAMP" in
  let nonce := header request "HTTP_X_API_NONCE" in
  let signature := header request "HTTP_X_API_SIGNATURE" in
  process_request settings urlparse now request s = (Return None, s')
  <-> exists ok token_obj t,
        validate_origin settings urlparse request = Return ok
        /\ headers_present request = true
        /\ tokens s !! token = Some token_obj
        /\ ApiChallengeToken.is_revoked token_obj = false
        /\ now <= ApiChallengeToken.expires_at token_obj
        /\ Py.int_of_str timestamp_str = Some t
        /\ Z.abs (timestamp now - t)
           <= getattr (API_REQUEST_TIMESTAMP_TOLERANCE settings) 60
        /\ ~ registered now nonce s
        /\ signature
           = calculate_signature token (ApiChallengeToken.secret token_obj)
               timestamp_str nonce (method request) (path request)
               (hash_body (body request))
        /\ s' = store_with_nonce settings now token_obj nonce s.
Proof.
  intros token timestamp_str nonce signature.
  unfold process_request.
  rewrite (process_request_gated _ _ _ _ _ _ Hgated).
  rewrite validate_request_stages.
  fold token timestamp_str nonce signature.
  split.
  - destruct (validate_origin settings urlparse request) as [ok|e];
      [| discriminate].
    destruct (headers_present request); [| discriminate].
    cbn [negb]. cbv zeta.
    destruct (validate_token now token s) as [token_obj|e] eqn:Htoken.
    2:{ destruct (isinstance e TokenExpiredError); discriminate. }
    destruct (validate_timestamp settings now timestamp_str) as [t|e]
      eqn:Htime.
    2:{ destruct (isinstance e InvalidTimestampError); discriminate. }
    destruct (check_nonce settings now token_obj nonce s) as [[row|e] s1]
      eqn:Hnonce.
    2:{ destruct (isinstance e NonceReusedError); discriminate. }
    apply check_nonce_returns in Hnonce as (_ & -> & Hfresh).
    destruct (validate_signature _ _ _ _ _ _ _ _ _) as [b|e] eqn:Hsig.
    2:{ destruct (isinstance e InvalidSignatureError); discriminate. }
    intros H. inversion H; subst s'.
    assert (Hb : b = true).
    { unfold validate_signature, get_token_secret in Hsig.
      rewrite validate_token_store_with_nonce, Htoken in Hsig.
      cbn [and_then try_pure] in Hsig.
      destruct (compare_digest _ _) as [equal|e]; [| discriminate].
      cbn [and_then] in Hsig. destruct (negb equal); inversion Hsig.
      reflexivity. }
    subst b.
    apply validate_signature_succeeds_iff in Hsig as (row' & Hrow' & Hdigest).
    rewrite validate_token_store_with_nonce, Htoken in Hrow'.
    inversion Hrow'; subst row'.
    apply validate_token_returns_iff in Htoken as (Hrow & Hrev & Hexp).
    apply validate_timestamp_returns in Htime as [Hparsed Hwindow].
    exists ok, token_obj, t. repeat split; auto.
  - intros (ok & token_obj & t & Horigin & Hheaders & Hrow & Hrev & Hexp
            & Hparsed & Hwindow & Hfresh & Hdigest & ->).
    rewrite Horigin, Hheaders. cbn [negb]. cbv zeta.
    assert (Htoken : validate_token now token s = Return token_obj)
      by (apply validate_token_returns_iff; auto).
    assert (Htime : validate_timestamp settings now timestamp_str = Return t)
      by (apply validate_timestamp_returns; auto).
    rewrite Htoken, Htime.
    rewrite (check_nonce_unregistered _ _ _ _ _ Hfresh).
    assert (Hsig :
      validate_signature now token timestamp_str nonce (method request)
        (path request) (hash_body (body request)) signature
        (store_with_nonce settings now token_obj nonce s) = Return true).
    { apply validate_signature_succeeds_iff. exists token_obj.
      split; [| exact Hdigest].
      rewrite validate_token_store_with_nonce. exact Htoken. }
    rewrite Hsig. reflexivity.
Qed.


(** X12. The gate never lets an exception escape: whatever the request,
    the store and the way the nonce check is carried out, it returns
    [None] or an answer. *)
Theorem process_request_never_raises
    (check : Z -> ApiChallengeToken.t -> string -> M ApiNonce.t)
    (now : Z) (request : HttpRequest) (s : store) :
  exists answer,
    fst (process_request_with settings urlparse check now request s)
    = Return answer
    /\ match answer with
       | None => True
       | Some response =>
           (status response = 401 \/ status response = 500)
           /\ exists message, data response = [("error", message)]
       end.
Proof.
  destruct (gated request) eqn:Hgated.
  - rewrite (process_request_gated _ _ _ _ _ _ Hgated).
    rewrite validate_request_stages.
    assert (Hrejected : forall e,
      (status (rejected settings e) = 401 \/ status (rejected settings e) = 500)
      /\ exists message, data (rejected settings e) = [("error", message)]).
    { intros e. unfold rejected.
      destruct (isinstance e SecurityError); simpl; [eauto |].
      destruct (getattr (DEBUG settings) false); simpl; eauto. }
    destruct (validate_origin settings urlparse request) as [ok|e].
    2:{ eexists. split; [reflexivity |]. apply Hrejected. }
    destruct (negb (headers_present request)).
    { eexists. split; [reflexivity |]. simpl. eauto. }
    cbv zeta.
    destruct (validate_token now _ s) as [token_obj|e].
    2:{ destruct (isinstance e TokenExpiredError);
          (eexists; split; [reflexivity |]); [simpl; eauto | apply Hrejected]. }
    destruct (validate_timestamp settings now _) as [t|e].
    2:{ destruct (isinstance e InvalidTimestampError);
          (eexists; split; [reflexivity |]); [simpl; eauto | apply Hrejected]. }
    destruct (check now token_obj _ s) as [[row|e] s1].
    2:{ destruct (isinstance e NonceReusedError);
          (eexists; split; [reflexivity |]); [simpl; eauto | apply Hrejected]. }
    destruct (validate_signature _ _ _ _ _ _ _ _ s1) as [b|e].
    { exists None. split; [reflexivity | exact I]. }
    destruct (isinstance e InvalidSignatureError);
      (eexists; split; [reflexivity |]); [simpl; eauto | apply Hrejected].
  - rewrite (process_request_skipped _ _ _ _ _ _ Hgated).
    exists None. split; [reflexivity | exact I].
Qed.

End Allowed.

Section GateEffects.

Variable settings : Settings.
Variable urlparse : urlparser.



(** X14. A request that the gate has let through is never let through
    again: replayed at any later instant against the store it left, the
    same request is answered 401 and the store is not touched. *)
Theorem replay_is_rejected (now later : Z) (request : HttpRequest)
    (s s1 : store)
    (Hgated : gated request = true)
    (Hallowed : process_request settings urlparse now request s
                = (Return None, s1)) :
  exists message,
    process_request settings urlparse later request s1
    = (Return (Some (error_response message 401)), s1).
Proof.
  apply (process_request_allowed_iff settings urlparse now request s s1
           Hgated) in Hallowed
    as (ok & token_obj & t & Horigin & Hheaders & _ & _ & _ & _ & _ & _ & _
        & ->).
  unfold process_request.
  rewrite (process_request_gated _ _ _ _ _ _ Hgated).
  rewrite validate_request_stages, Horigin, Hheaders. cbn [negb]. cbv zeta.
  destruct (validate_token later _ _) as [token_obj'|e] eqn:Htoken.
  2:{ pose proof (validate_token_raises _ _ _ _ Htoken) as Hc.
      unfold isinstance. rewrite Hc. simpl. eauto. }
  destruct (validate_timestamp settings later _) as [t'|e] eqn:Htime.
  2:{ destruct (validate_timestamp_raises _ _ _ _ Htime) as [-> | ->];
        simpl; eauto. }
  rewrite (check_nonce_registered settings later token_obj' _ _
             (store_with_nonce_registered settings now later token_obj _ s)).
  simpl. eauto.
Qed.


(** X16. The gate fails closed on a missing configuration: outside DEBUG
    mode and without [FRONTEND_URL], no gated request is let through; each
    is answered 401 that the setting is missing, or 500 when the origin
    cannot be parsed, and the store is not touched. *)
Theorem unconfigured_origin_rejects_all (now : Z) (request : HttpRequest)
    (s : store)
    (Hproduction : getattr (DEBUG settings) false = false)
    (Hunset : getattr (FRONTEND_URL settings) "" = "")
    (Hgated : gated request = true) :
  exists response,
    process_request settings urlparse now request s
    = (Return (Some response), s)
    /\ (response = error_response "FRONTEND_URL not configured" 401
        \/ response = error_response "Security validation failed" 500).
Proof.
  unfold process_request.
  rewrite (process_request_gated _ _ _ _ _ _ Hgated).
  rewrite validate_request_stages.
  assert (Horigin :
    validate_origin settings urlparse request
    = Raise (raise_ SecurityError "FRONTEND_URL not configured")
    \/ validate_origin settings urlparse request
       = Raise (raise_ ValueError "Invalid IPv6 URL")).
  { unfold validate_origin. rewrite Hunset, Hproduction. cbn [Py.truthy negb].
    destruct (Py.startswith _ "http"); [| left; reflexivity].
    unfold parse_url. destruct (urlparse _); [left | right]; reflexivity. }
  destruct Horigin as [-> | ->].
  - eexists. split; [reflexivity |]. left. reflexivity.
  - eexists. split; [reflexivity |]. right.
    unfold rejected. simpl. rewrite Hproduction. reflexivity.
Qed.

(** X17. The [Origin] header takes precedence: when it is present and not
    empty, the verdict of [validate_origin] does not depend on the
    [Referer]. *)
Theorem origin_precedes_referer (request : HttpRequest)
    (origin referer : string)
    (Horigin : META request !! "HTTP_ORIGIN" = Some origin)
    (Hnonempty : origin <> "") :
  validate_origin settings urlparse (with_header "HTTP_REFERER" referer request)
  = validate_origin settings urlparse request.
Proof.
  unfold validate_origin, with_header. simpl.
  rewrite lookup_insert_ne by discriminate. rewrite Horigin.
  destruct origin as [|c rest]; [contradiction |]. reflexivity.
Qed.

(** X18. [DisableCSRFForAPI] never answers a request, and it switches the
    CSRF checks off for every request that the signing gate validates; for
    a request outside [/api/] it sets nothing, and such a request is not
    validated by the gate either. *)
Theorem csrf_switch_covers_gate (now : Z) (request : HttpRequest)
    (attrs : gmap string bool) (s : store) :
  let after := DisableCSRFForAPI_process_request request attrs in
  fst after = None
  /\ (gated request = true ->
      snd after !! "_dont_enforce_csrf_checks" = Some true)
  /\ (Py.startswith (path request) "/api/" = false ->
      snd after = attrs
      /\ process_request settings urlparse now request s = (Return None, s)).
Proof.
  unfold DisableCSRFForAPI_process_request. cbn [fst snd].
  split; [reflexivity |]. split.
  - intros Hgated. apply gated_true_iff in Hgated as (_ & _ & Hapi & _).
    rewrite Hapi. apply lookup_insert_eq.
  - intros Hapi. rewrite Hapi. split; [reflexivity |].
    apply process_request_skipped. unfold gated. rewrite Hapi.
    apply andb_false_iff. left. apply andb_false_r.
Qed.

End GateEffects.

(** ** The verdicts of the signature check *)

Section SignatureVerdicts.

Variables (now : Z) (s : store).
Variables (token timestamp nonce method path body_hash : string).

(** X19. [validate_signature] returns [True] exactly when the token is one
    that [validate_token] accepts and the signature is the digest of the
    six fields under the stored secret of that token. *)
Theorem accepted_signature_is_digest (signature : string) :
  validate_signature now token timestamp nonce method path body_hash
                     signature s = Return true
  <-> exists row,
        validate_token now token s = Return row
        /\ signature
           = calculate_signature token (ApiChallengeToken.secret row)
               timestamp nonce method path body_hash.
Proof. apply validate_signature_succeeds_iff. Qed.

(** X20. For a token that [validate_token] refuses, [validate_signature]
    raises [InvalidSignatureError] whatever the signature, the right one
    included; for an accepted token, an ASCII signature other than the
    expected digest raises [InvalidSignatureError] too. *)
Theorem refused_signature_is_invalid (signature : string) :
  (forall e, validate_token now token s = Raise e ->
     validate_signature now token timestamp nonce method path body_hash
                        signature s
     = Raise (raise_ InvalidSignatureError "Invalid or expired token"))
  /\ (forall row,
        validate_token now token s = Return row ->
        Py.isascii signature = true ->
        signature
        <> calculate_signature token (ApiChallengeToken.secret row)
             timestamp nonce method path body_hash ->
        validate_signature now token timestamp nonce method path body_hash
                           signature s
        = Raise (raise_ InvalidSignatureError "Invalid signature")).
Proof.
  split.
  - intros e Htoken. apply (validate_signature_invalid_token _ _ _ _ _ _ _ _ _ e).
    exact Htoken.
  - intros row Htoken Hascii Hne.
    eapply validate_signature_mismatch; eassumption.
Qed.

End SignatureVerdicts.

(** ** The effects of a registered nonce *)

Section NonceEffects.

Variable settings : Settings.


(** X22. Whatever the order of their accesses, of the calls of
    [check_nonce] that present the same nonce at most one inserts its
    row. *)
Theorem concurrent_calls_insert_once (n : string) (schedule : list nat)
    (calls : list call) (s : store) (i j : nat) (ci cj : call)
    (Hfresh : fresh_calls n calls)
    (Hi : fst (run settings schedule (calls, s)) !! i = Some ci)
    (Hj : fst (run settings schedule (calls, s)) !! j = Some cj)
    (Hai : accepted ci = true) (Haj : accepted cj = true) :
  i = j.
Proof.
  destruct (single_insert_run settings n schedule _
              (single_insert_fresh n calls s Hfresh)) as (_ & _ & Hone).
  exact (Hone i j ci cj Hi Hj Hai Haj).
Qed.

(** X23. When concurrent calls of [check_nonce] present a nonce that is
    neither in the table nor in the cache and all of them have finished,
    one of them has inserted its row, and each of the others has raised
    [NonceReusedError] or the [IntegrityError] of the unique column. *)
Theorem concurrent_calls_one_winner (n : string) (schedule : list nat)
    (calls : list call) (s : store)
    (Hfresh : fresh_calls n calls) (Hsome : calls <> [])
    (Hrow : nonces s !! n = None)
    (Hflag : cache s !! nonce_cache_key n = None)
    (Hdone : forall i c,
               fst (run settings schedule (calls, s)) !! i = Some c ->
               finished c = true) :
  exists i c,
    fst (run settings schedule (calls, s)) !! i = Some c
    /\ accepted c = true
    /\ is_Some (nonces (snd (run settings schedule (calls, s))) !! n)
    /\ forall j cj,
         fst (run settings schedule (calls, s)) !! j = Some cj -> j <> i ->
         exists e, call_at cj = Finished (Raise e)
                   /\ (e = nonce_reused \/ e = integrity_error).
Proof.
  destruct (exactly_one_accepted settings n schedule calls s Hfresh Hsome Hrow
              Hflag Hdone) as (i & c & Hc & Hacc & Hothers).
  exists i, c. split; [exact Hc |]. split; [exact Hacc |].
  split; [| exact Hothers].
  destruct (single_insert_run settings n schedule _
              (single_insert_fresh n calls s Hfresh)) as (_ & Hstored & _).
  exact (Hstored i c Hc Hacc).
Qed.

End NonceEffects.

(** ** The issuance view *)

Section IssuanceView.

Variable settings : Settings.
Variable urlparse : urlparser.
Variable isoformat : Z -> string.

Lemma contains_char_cons d c s :
  Py.contains (String d "") (String c s)
  = Ascii.eqb c d || Py.contains (String d "") s.
Proof.
  cbn [Py.contains String.prefix].
  destruct (ascii_dec d c) as [<- | Hne].
  - rewrite Ascii.eqb_refl. destruct s; reflexivity.
  - assert (Hc : Ascii.eqb c d = false) by (apply Ascii.eqb_neq; congruence).
    rewrite Hc. reflexivity.
Qed.

Lemma split_comma_head_no_comma s :
  Py.contains "," (PyStr.split_comma_head s) = false.
Proof.
  induction s as [|c s IH]; [reflexivity |].
  cbn [PyStr.split_comma_head].
  destruct (Ascii.eqb c ",") eqn:Hc; [reflexivity |].
  rewrite contains_char_cons, Hc, IH. reflexivity.
Qed.

Lemma lstrip_no_comma s :
  Py.contains "," s = false -> Py.contains "," (PyStr.lstrip s) = false.
Proof.
  induction s as [|c s IH]; [auto |].
  intros Hs. cbn [PyStr.lstrip].
  destruct (PyStr.isspace c); [| exact Hs].
  apply IH. rewrite contains_char_cons in Hs.
  apply orb_false_iff in Hs as [_ Hs]. exact Hs.
Qed.

Lemma rstrip_no_comma s :
  Py.contains "," s = false -> Py.contains "," (PyStr.rstrip s) = false.
Proof.
  induction s as [|c s IH]; [auto |].
  intros Hs. rewrite contains_char_cons in Hs.
  apply orb_false_iff in Hs as [Hc Hs]. specialize (IH Hs).
  cbn [PyStr.rstrip].
  destruct (PyStr.rstrip s) as [|d r].
  - destruct (PyStr.isspace c); [reflexivity |].
    rewrite contains_char_cons, Hc. reflexivity.
  - rewrite contains_char_cons, Hc. exact IH.
Qed.

Lemma rstrip_idempotent s : PyStr.rstrip (PyStr.rstrip s) = PyStr.rstrip s.
Proof.
  induction s as [|c s IH]; [reflexivity |].
  cbn [PyStr.rstrip].
  destruct (PyStr.rstrip s) as [|d r] eqn:Hr.
  - destruct (PyStr.isspace c) eqn:Hc; [reflexivity |].
    cbn [PyStr.rstrip]. rewrite Hc. reflexivity.
  - change (PyStr.rstrip (String c (String d r)))
      with (match PyStr.rstrip (String d r) with
            | EmptyString =>
                if PyStr.isspace c then EmptyString else String c EmptyString
            | String _ _ as r' => String c r'
            end).
    rewrite IH. reflexivity.
Qed.

(** The string is empty or starts with a character that is no space. *)
Lemma lstrip_clean s :
  PyStr.lstrip (PyStr.lstrip s) = PyStr.lstrip s.
Proof.
  induction s as [|c s IH]; [reflexivity |].
  cbn [PyStr.lstrip]. destruct (PyStr.isspace c) eqn:Hc; [exact IH |].
  cbn [PyStr.lstrip]. rewrite Hc. reflexivity.
Qed.

Lemma lstrip_rstrip_clean t :
  PyStr.lstrip t = t -> PyStr.lstrip (PyStr.rstrip t) = PyStr.rstrip t.
Proof.
  destruct t as [|c t]; [reflexivity |].
  intros Hclean. cbn [PyStr.lstrip] in Hclean.
  destruct (PyStr.isspace c) eqn:Hc.
  - exfalso.
    assert (Hlen : (String.length (PyStr.lstrip t) <= String.length t)%nat).
    { clear. induction t as [|d t IH]; [reflexivity |].
      cbn [PyStr.lstrip]. destruct (PyStr.isspace d); simpl; lia. }
    rewrite Hclean in Hlen. simpl in Hlen. lia.
  - cbn [PyStr.rstrip]. destruct (PyStr.rstrip t) as [|d r].
    + rewrite Hc. cbn [PyStr.lstrip]. rewrite Hc. reflexivity.
    + cbn [PyStr.lstrip]. rewrite Hc. reflexivity.
Qed.

Lemma strip_idempotent s : PyStr.strip (PyStr.strip s) = PyStr.strip s.
Proof.
  unfold PyStr.strip.
  rewrite (lstrip_rstrip_clean _ (lstrip_clean s)).
  apply rstrip_idempotent.
Qed.

(** X24. [_get_client_ip] takes the address from [X-Forwarded-For] when
    the header is present and not empty: the text before the first comma,
    stripped, which holds no comma and no surrounding space; otherwise it
    is [REMOTE_ADDR]. *)
Theorem client_ip_source (request : HttpRequest) :
  (forall forwarded,
     META request !! "HTTP_X_FORWARDED_FOR" = Some forwarded ->
     forwarded <> "" ->
     exists ip,
       _get_client_ip request = Some ip
       /\ ip = PyStr.strip (PyStr.split_comma_head forwarded)
       /\ Py.contains "," ip = false
       /\ PyStr.strip ip = ip)
  /\ (META request !! "HTTP_X_FORWARDED_FOR" = None
      \/ META request !! "HTTP_X_FORWARDED_FOR" = Some "" ->
      _get_client_ip request = META request !! "REMOTE_ADDR").
Proof.
  unfold _get_client_ip. split.
  - intros forwarded Hheader Hne. rewrite Hheader.
    destruct forwarded as [|c rest]; [contradiction |].
    cbn [Py.truthy_opt Py.truthy Py.the].
    eexists. split; [reflexivity |]. split; [reflexivity |]. split.
    + unfold PyStr.strip. apply rstrip_no_comma, lstrip_no_comma.
      apply split_comma_head_no_comma.
    + apply strip_idempotent.
  - intros [-> | ->]; reflexivity.
Qed.

(** The view, stage by stage. *)
Lemma ChallengeView_post_stages now later uuid token secret request s :
  let issue :=
    match generate_token settings now uuid token secret
            (_get_client_ip request) s with
    | (Return issued, s') =>
        (Return
           {| response_data :=
                [ ("token", JStr (fst issued));
                  ("secret", JStr (ApiChallengeToken.secret (snd issued)));
                  ("expires_at",
                   JStr (isoformat (ApiChallengeToken.expires_at (snd issued))));
                  ("expires_in",
                   JInt (Z.quot (ApiChallengeToken.expires_at (snd issued)
                                 - later) 1000000)) ];
              status_code := 201 |}, s')
    | (Raise e, s') =>
        (Return (rest_error "Failed to generate challenge token" 500), s')
    end in
  ChallengeView_post settings urlparse isoformat now later uuid token secret
    request s
  = match validate_origin settings urlparse request with
    | Return _ => issue
    | Raise e =>
        if isinstance e SecurityError then
          if getattr (DEBUG settings) false then issue
          else (Return (rest_error (str_of e) 403), s)
        else (Return (rest_error "Failed to generate challenge token" 500), s)
    end.
Proof.
  intros issue. subst issue.
  unfold ChallengeView_post, handle, try_except, bind, reads, ret.
  destruct (validate_origin settings urlparse request) as [ok|e].
  - destruct (generate_token _ _ _ _ _ _ s) as [[issued|e] s']; reflexivity.
  - destruct (isinstance e SecurityError) eqn:Hsec.
    + destruct (getattr (DEBUG settings) false); [| reflexivity].
      destruct (generate_token _ _ _ _ _ _ s) as [[issued|e'] s'];
        reflexivity.
    + reflexivity.
Qed.

(** X25. Outside DEBUG mode, a request for a token whose origin
    [validate_origin] refuses is answered 403 with the text of the error,
    and no token is issued: the store is left as it was. *)
Theorem challenge_post_forbidden (now later : Z) (uuid : N)
    (token secret : string) (request : HttpRequest) (s : store) (e : exn)
    (Hproduction : getattr (DEBUG settings) false = false)
    (Horigin : validate_origin settings urlparse request = Raise e)
    (Hsecurity : isinstance e SecurityError = true) :
  ChallengeView_post settings urlparse isoformat now later uuid token secret
    request s
  = (Return (rest_error (str_of e) 403), s).
Proof.
  rewrite ChallengeView_post_stages, Horigin, Hsecurity, Hproduction.
  reflexivity.
Qed.



End IssuanceView.

(** ** The further properties on the example deployment *)

Lemma example_ids_unique : ids_unique Example.s0.
Proof.
  intros k1 k2 r1 r2 H1 H2 Hsame. simpl in H1, H2.
  apply lookup_insert_Some in H1 as [[<- <-] | [_ H1]];
    apply lookup_insert_Some in H2 as [[<- <-] | [_ H2]];
    try reflexivity.
  - apply lookup_singleton_Some in H2 as [<- <-]. discriminate.
  - apply lookup_singleton_Some in H1 as [<- <-]. discriminate.
  - apply lookup_singleton_Some in H1 as [<- _].
    apply lookup_singleton_Some in H2 as [<- _]. reflexivity.
Defined.

Lemma accepted_signature_format_witness :
  validate_signature 10000000 "tok" "10" "n1" "POST" "/api/orders/" ""
    Example.sig_n1 Example.s0 = Return true
  /\ String.length Example.sig_n1 = 64%nat.
Proof.
  assert (Haccepted :
    validate_signature 10000000 "tok" "10" "n1" "POST" "/api/orders/" ""
      Example.sig_n1 Example.s0 = Return true) by (vm_compute; reflexivity).
  split; [exact Haccepted |].
  exact (proj1 (accepted_signature_format _ _ _ _ _ _ _ _ _ Haccepted)).
Defined.

Lemma signature_string_injective_witness :
  signature_string "tok" "10" "n1" "POST" "/api/orders/" ""
  = signature_string "tok" "10" "n1" "POST" "/api/orders/" ""
  /\ "n1" = "n1".
Proof.
  split; [reflexivity |].
  exact (proj1 (proj2 (proj2
    (signature_string_injective "tok" "10" "n1" "POST" "/api/orders/" ""
       "tok" "10" "n1" "POST" "/api/orders/" ""
       eq_refl eq_refl eq_refl eq_refl eq_refl eq_refl eq_refl eq_refl
       eq_refl eq_refl eq_refl)))).
Defined.

Lemma validate_token_earlier_witness :
  validate_token 200000000 "tok" Example.s0 = Return Example.tok
  /\ validate_token 10000000 "tok" Example.s0 = Return Example.tok.
Proof.
  assert (Hlater : validate_token 200000000 "tok" Example.s0
                   = Return Example.tok) by reflexivity.
  split; [exact Hlater |].
  apply (validate_token_earlier 10000000 200000000 "tok" Example.s0
           Example.tok); [lia | exact Hlater].
Defined.





Lemma revoked_token_is_refused_witness :
  tokens Example.s0 !! "tok" = Some Example.tok
  /\ exists s1,
       token_revoke Example.tok Example.s0
       = (Return (ApiChallengeToken.revoke Example.tok), s1)
       /\ validate_token 10000000 "tok" s1
          = Raise (raise_ TokenExpiredError "Token expired or revoked")
       /\ validate_token 10000000 "tok2" s1 = Return Example.tok2.
Proof.
  split; [reflexivity |].
  destruct (revoked_token_is_refused Example.tok "tok" Example.s0
              example_ids_unique eq_refl)
    as (s1 & Hrun & Hrefused & Hother & _).
  exists s1. split; [exact Hrun |]. split; [apply Hrefused |].
  rewrite Hother by discriminate. reflexivity.
Defined.

Lemma revoke_tokens_marks_selected_witness :
  rows_of Example.s0 [Example.tok; Example.tok2]
  /\ exists s1,
       revoke_tokens [Example.tok; Example.tok2] Example.s0
       = (Return "2 token(s) revoked.", s1)
       /\ validate_token 10000000 "tok2" s1
          = Raise (raise_ TokenExpiredError "Token expired or revoked").
Proof.
  assert (Hrows : rows_of Example.s0 [Example.tok; Example.tok2])
    by (repeat constructor).
  assert (Hdistinct :
    NoDup (map ApiChallengeToken.token [Example.tok; Example.tok2])).
  { repeat constructor; simpl.
    - intros Hin. apply list_elem_of_In in Hin as [Hin | []]. discriminate.
    - intros Hin. apply list_elem_of_In in Hin as []. }
  split; [exact Hrows |].
  destruct (revoke_tokens_marks_selected [Example.tok; Example.tok2]
              Example.s0 example_ids_unique Hdistinct Hrows)
    as (s1 & Hrun & Hrefused & _).
  exists s1. split; [exact Hrun |].
  apply (Hrefused Example.tok2). right. left. reflexivity.
Defined.

Lemma sample_allowed :
  let request := Example.signed "10" "n1" Example.sig_n1 in
  process_request Example.settings Example.urlparse 10000000 request
    Example.s0
  = (Return None,
     store_with_nonce Example.settings 10000000 Example.tok "n1" Example.s0).
Proof.
  intros request.
  apply process_request_allowed_iff; [reflexivity |].
  exists true, Example.tok, 10.
  split; [vm_compute; reflexivity |]. split; [reflexivity |].
  split; [reflexivity |]. split; [reflexivity |].
  split; [vm_compute; discriminate |]. split; [reflexivity |].
  split; [vm_compute; discriminate |].
  split; [intros [[x Hx] | Hflag]; vm_compute in *; discriminate |].
  split; [vm_compute; reflexivity | reflexivity].
Defined.


Lemma replay_is_rejected_witness :
  let request := Example.signed "10" "n1" Example.sig_n1 in
  let s1 := store_with_nonce Example.settings 10000000 Example.tok "n1"
              Example.s0 in
  process_request Example.settings Example.urlparse 10000000 request
    Example.s0 = (Return None, s1)
  /\ exists message,
       process_request Example.settings Example.urlparse 15000000 request s1
       = (Return (Some (error_response message 401)), s1).
Proof.
  intros request s1. split; [exact sample_allowed |].
  exact (replay_is_rejected Example.settings Example.urlparse 10000000
           15000000 request Example.s0 s1 eq_refl sample_allowed).
Defined.


Lemma unconfigured_origin_rejects_all_witness :
  let request := Example.signed "10" "n1" Example.sig_n1 in
  getattr (FRONTEND_URL Sample.unconfigured) "" = ""
  /\ fst (process_request Sample.unconfigured Example.urlparse 10000000
            request Example.s0)
     = Return (Some (error_response "FRONTEND_URL not configured" 401)).
Proof.
  intros request. split; [reflexivity |].
  destruct (unconfigured_origin_rejects_all Sample.unconfigured
              Example.urlparse 10000000 request Example.s0 eq_refl eq_refl
              eq_refl) as (response & Hanswer & _).
  rewrite Hanswer. vm_compute in Hanswer. inversion Hanswer. reflexivity.
Defined.

Lemma origin_precedes_referer_witness :
  let request := Example.signed "10" "n1" Example.sig_n1 in
  META request !! "HTTP_ORIGIN" = Some "https://shop.example"
  /\ validate_origin Example.settings Example.urlparse
       (with_header "HTTP_REFERER" "https://evil.example/page" request)
     = Return true.
Proof.
  intros request.
  assert (Horigin : META request !! "HTTP_ORIGIN" = Some "https://shop.example")
    by (vm_compute; reflexivity).
  split; [exact Horigin |].
  rewrite (origin_precedes_referer Example.settings Example.urlparse request
             "https://shop.example" "https://evil.example/page" Horigin);
    [vm_compute; reflexivity | discriminate].
Defined.


Lemma sample_fresh_calls :
  fresh_calls "n1"
    [Example.call_of 10000000 "n1"; Example.call_of 10000000 "n1"].
Proof. repeat constructor. Defined.

Lemma concurrent_calls_insert_once_witness :
  let calls := [Example.call_of 10000000 "n1"; Example.call_of 10000000 "n1"] in
  let w := run Example.settings [0; 0; 1; 1; 0; 1; 0]%nat (calls, Example.s0) in
  fresh_calls "n1" calls
  /\ forall j cj, fst w !! j = Some cj -> accepted cj = true -> j = 0%nat.
Proof.
  intros calls w. split; [exact sample_fresh_calls |].
  intros j cj Hj Hacc.
  assert (H0 : exists c0, fst w !! 0%nat = Some c0 /\ accepted c0 = true).
  { eexists. split; vm_compute; reflexivity. }
  destruct H0 as (c0 & Hc0 & Hacc0).
  exact (concurrent_calls_insert_once Example.settings "n1" _ calls
           Example.s0 j 0%nat cj c0 sample_fresh_calls Hj Hc0 Hacc Hacc0).
Defined.

Lemma concurrent_calls_one_winner_witness :
  let calls := [Example.call_of 10000000 "n1"; Example.call_of 10000000 "n1"] in
  let w := run Example.settings [0; 0; 1; 1; 0; 1; 0]%nat (calls, Example.s0) in
  (forall i c, fst w !! i = Some c -> finished c = true)
  /\ exists i c, fst w !! i = Some c /\ accepted c = true.
Proof.
  intros calls w.
  assert (Hdone : forall i c, fst w !! i = Some c -> finished c = true).
  { intros i c Hc. destruct i as [|[|i]]; vm_compute in Hc;
      inversion Hc; reflexivity. }
  split; [exact Hdone |].
  destruct (concurrent_calls_one_winner Example.settings "n1"
              [0; 0; 1; 1; 0; 1; 0]%nat calls Example.s0 sample_fresh_calls
              ltac:(discriminate) eq_refl eq_refl Hdone)
    as (i & c & Hc & Hacc & _).
  exists i, c. split; assumption.
Defined.

Lemma challenge_post_forbidden_witness :
  validate_origin Example.settings Example.urlparse Sample.evil_request
  = Raise (raise_ SecurityError "Invalid origin: https://evil.example")
  /\ ChallengeView_post Example.settings Example.urlparse Sample.isoformat
       0 0 3 "fresh" "k" Sample.evil_request Example.s0
     = (Return (rest_error "Invalid origin: https://evil.example" 403),
        Example.s0).
Proof.
  assert (Horigin :
    validate_origin Example.settings Example.urlparse Sample.evil_request
    = Raise (raise_ SecurityError "Invalid origin: https://evil.example"))
    by (vm_compute; reflexivity).
  split; [exact Horigin |].
  exact (challenge_post_forbidden Example.settings Example.urlparse
           Sample.isoformat 0 0 3 "fresh" "k" Sample.evil_request Example.s0
           _ eq_refl Horigin eq_refl).
Defined.


(** ** The origin in production *)

Section ProductionOrigin.

Variable settings : Settings.
Variable urlparse : urlparser.

Lemma validate_origin_production request ok :
  getattr (DEBUG settings) false = false ->
  validate_origin settings urlparse request = Return ok ->
  exists origin,
    presented_origin urlparse request = Return origin
    /\ getattr (FRONTEND_URL settings) "" <> ""
    /\ Py.rstrip_slash origin
       = Py.rstrip_slash (getattr (FRONTEND_URL settings) "").
Proof.
  intros Hproduction. unfold validate_origin, presented_origin.
  rewrite Hproduction.
  set (presented := Py.or_else _ _).
  destruct (if Py.startswith presented "http"
            then let! parsed := parse_url urlparse presented in
                 Return (scheme parsed +:+ "://" +:+ netloc parsed)
            else Return presented) as [origin|e]; [| discriminate].
  cbn [and_then].
  destruct (getattr (FRONTEND_URL settings) "") as [|c rest] eqn:Hfrontend;
    [discriminate |].
  cbn [Py.truthy negb andb].
  destruct (String.eqb (Py.rstrip_slash origin)
              (Py.rstrip_slash (String c rest))) eqn:Heq;
    [| discriminate].
  intros _. exists origin. split; [reflexivity |].
  split; [discriminate |]. apply String.eqb_eq. exact Heq.
Qed.

(** X28. Outside DEBUG mode, a gated request that the gate lets through
    presented, in [Origin] or else in [Referer], the configured
    [FRONTEND_URL] up to trailing slashes: no other origin passes, the
    localhost variants included. *)
Theorem production_origin_is_frontend (now : Z) (request : HttpRequest)
    (s s' : store)
    (Hproduction : getattr (DEBUG settings) false = false)
    (Hgated : gated request = true)
    (Hallowed : process_request settings urlparse now request s
                = (Return None, s')) :
  exists origin,
    presented_origin urlparse request = Return origin
    /\ getattr (FRONTEND_URL settings) "" <> ""
    /\ Py.rstrip_slash origin
       = Py.rstrip_slash (getattr (FRONTEND_URL settings) "").
Proof.
  apply (process_request_allowed_iff settings urlparse now request s s'
           Hgated) in Hallowed as (ok & _ & _ & Horigin & _).
  exact (validate_origin_production request ok Hproduction Horigin).
Qed.

End ProductionOrigin.

Lemma production_origin_is_frontend_witness :
  let request := Example.signed "10" "n1" Example.sig_n1 in
  process_request Example.settings Example.urlparse 10000000 request
    Example.s0
  = (Return None,
     store_with_nonce Example.settings 10000000 Example.tok "n1" Example.s0)
  /\ exists origin,
       presented_origin Example.urlparse request = Return origin
       /\ Py.rstrip_slash origin = "https://shop.example".
Proof.
  intros request. split; [exact sample_allowed |].
  destruct (production_origin_is_frontend Example.settings Example.urlparse
              10000000 request Example.s0 _ eq_refl eq_refl sample_allowed)
    as (origin & Hpresented & _ & Hsame).
  exists origin. split; [exact Hpresented | exact Hsame].
Defined.
